(** * tardis_client/tardis_client.py: the slice replay loop and its validator

    A shallow embedding of [TardisClient.replay], [TardisClient._validate_payload]
    and [TardisClient._try_parse_as_iso_date], and the properties of the
    replay contract proved (or refuted) on it.

    Layout:
    - [Py]       the fragment of Python the module relies on: exceptions,
                 values and the object store, naive and aware datetimes,
                 JSON values, and the state-and-exception monad in which
                 the methods run;
    - [Imports]  what the module imports ([EXCHANGES],
                 [EXCHANGE_CHANNELS_INFO], [get_slice_cache_path]) and the
                 standard-library functions it calls, as one interface;
    - [Tardis]   the methods of [TardisClient], line by line;
    - [CPython]  executable models of the standard-library functions;
    - [Demo]     an instance of the interface on these models, and the
                 requests and cache directories on which statements are
                 evaluated;
    - the vocabulary of the statements, and the theorems: validation,
      decoding a slice, the replay loop, concrete requests. *)

From Stdlib Require Import ZArith List Strings.String Strings.Ascii Strings.Byte Bool Lia.
From stdpp Require Import base gmap strings list pretty.

Local Open Scope string_scope.
Local Open Scope Z_scope.

(** ** The Python fragment *)

Module Py.

(** Exceptions that code of this module, or the library functions it calls,
    can raise.  [JSONDecodeError] and [UnicodeDecodeError] are subclasses of
    [ValueError] in Python; [isinstance_ValueError] records that. *)
Inductive exn :=
| ValueError (msg : string)
| JSONDecodeError (msg : string)
| UnicodeDecodeError (msg : string)
| NameError (msg : string)
| TypeError (msg : string)
| AttributeError (msg : string)
| KeyError (key : string)
| OverflowError (msg : string)
| RecursionError (msg : string).

Definition isinstance_ValueError (e : exn) : bool :=
  match e with
  | ValueError _ | JSONDecodeError _ | UnicodeDecodeError _ => true
  | _ => false
  end.

(** Result of evaluating a piece of Python: a value or a raised exception. *)
Inductive res (A : Type) :=
| Ok (a : A)
| Raise (e : exn).
Arguments Ok {A} a.
Arguments Raise {A} e.

Definition res_bind {A B} (r : res A) (k : A -> res B) : res B :=
  match r with
  | Ok a => k a
  | Raise e => Raise e
  end.

(** *** Values and the object store

    Strings and [None] are immutable; lists and [Channel] instances are
    objects with identity, held in a store and referred to by address. *)
Definition loc := nat.

Inductive value :=
| VNone
| VBool (b : bool)
| VInt (n : Z)
| VStr (s : string)
| VList (l : loc)
| VChannel (l : loc).
Arguments VList l%_nat.
Arguments VChannel l%_nat.

(** Modelled from the spec: tardis_client/channel.py is not among the
    sources.  "Channel Filter: {name: string, symbols: optional ordered
    sequence of strings}": an instance of [Channel] has the two attributes
    the validator reads, holding whatever the caller put there. *)
Record Channel := { name : value; symbols : value }.

Record store := Store {
  lists : loc -> list value;
  channels : loc -> Channel
}.

Definition type_name (v : value) : string :=
  match v with
  | VNone => "NoneType"
  | VBool _ => "bool"
  | VInt _ => "int"
  | VStr _ => "str"
  | VList _ => "list"
  | VChannel _ => "Channel"
  end.

(** [isinstance(v, str)]; [isinstance(v, list)] is a match on [VList]. *)
Definition isinstance_str (v : value) : bool :=
  match v with VStr _ => true | _ => false end.

(** *** datetime

    A [datetime] is held as its position on the proleptic Gregorian time
    line, in microseconds from [datetime.min] = 0001-01-01T00:00:00, together
    with its [tzinfo]: [None] for a naive value, the UTC offset in
    microseconds for an aware one.  Ordering and [timedelta] arithmetic are
    then those of [Z], inside the bounds of [datetime.min] and
    [datetime.max]. *)
Record datetime := Datetime { micros : Z; tzinfo : option Z }.

Definition MICROS_PER_SECOND : Z := 1000000.
Definition MICROS_PER_DAY : Z := 86400 * MICROS_PER_SECOND.
(** [date.max.toordinal()] *)
Definition MAXORDINAL : Z := 3652059.
(** [datetime.max] = 9999-12-31T23:59:59.999999 *)
Definition MAX_MICROS : Z := MAXORDINAL * MICROS_PER_DAY - 1.

Definition _is_leap (year : Z) : bool :=
  (year mod 4 =? 0) && (negb (year mod 100 =? 0) || (year mod 400 =? 0)).

Definition _days_before_year (year : Z) : Z :=
  let y := year - 1 in y * 365 + y / 4 - y / 100 + y / 400.

Definition _days_in_month (year month : Z) : Z :=
  if (month =? 2) && _is_leap year then 29
  else nth (Z.to_nat month) [0; 31; 28; 31; 30; 31; 30; 31; 31; 30; 31; 30; 31] 0.

Definition _days_before_month (year month : Z) : Z :=
  nth (Z.to_nat month) [0; 0; 31; 59; 90; 120; 151; 181; 212; 243; 273; 304; 334] 0
  + (if (2 <? month) && _is_leap year then 1 else 0).

Definition _ymd2ord (year month day : Z) : Z :=
  _days_before_year year + _days_before_month year month + day.

Definition between (lo x hi : Z) : bool := (lo <=? x) && (x <=? hi).

(** [datetime(year, month, day, hour, minute, second, microsecond, tzinfo)]:
    [None] stands for the [ValueError] of the constructor on a field out of
    range. *)
Definition mk_datetime (year month day hour minute second microsecond : Z)
    (tz : option Z) : option datetime :=
  if between 1 year 9999 && between 1 month 12
     && between 1 day (_days_in_month year month)
     && between 0 hour 23 && between 0 minute 59 && between 0 second 59
     && between 0 microsecond 999999
  then Some {| micros := ((_ymd2ord year month day - 1) * 86400
                          + hour * 3600 + minute * 60 + second) * MICROS_PER_SECOND
                         + microsecond;
               tzinfo := tz |}
  else None.

(** The instant an aware value denotes; for a naive one, its local time. *)
Definition utc_micros (d : datetime) : Z :=
  micros d - default 0 (tzinfo d).

(** Rich comparison of two datetimes: a naive and an aware value do not
    order. *)
Definition dt_compare (a b : datetime) : res comparison :=
  match tzinfo a, tzinfo b with
  | None, None | Some _, Some _ => Ok (utc_micros a ?= utc_micros b)
  | _, _ => Raise (TypeError "can't compare offset-naive and offset-aware datetimes")
  end.

(** [a < b] *)
Definition dt_lt (a b : datetime) : res bool :=
  match dt_compare a b with
  | Ok Lt => Ok true
  | Ok _ => Ok false
  | Raise e => Raise e
  end.

(** [a >= b] *)
Definition dt_ge (a b : datetime) : res bool :=
  match dt_compare a b with
  | Ok Lt => Ok false
  | Ok _ => Ok true
  | Raise e => Raise e
  end.

(** [d + timedelta(seconds=s)] *)
Definition dt_add_seconds (d : datetime) (s : Z) : res datetime :=
  let m := micros d + s * MICROS_PER_SECOND in
  if between 0 m MAX_MICROS
  then Ok {| micros := m; tzinfo := tzinfo d |}
  else Raise (OverflowError "date value out of range").

(** *** JSON values, as [json.loads] builds them

    A [dict] is the list of its items in insertion order; a number with a
    fraction or an exponent keeps its lexeme (no floating point here). *)
#[local] Unset Elimination Schemes.
Inductive json :=
| JNull
| JBool (b : bool)
| JInt (n : Z)
| JFloat (lexeme : string)
| JStr (s : string)
| JArr (items : list json)
| JObj (items : list (string * json)).
#[local] Set Elimination Schemes.

(** *** Response

    [Response = namedtuple("Response", ["local_timestamp", "message"])];
    a field is a parsed datetime, a decoded JSON value or raw [bytes]. *)
Inductive field :=
| FDatetime (d : datetime)
| FJson (j : json)
| FBytes (b : list byte).

Record Response := { local_timestamp : field; message : field }.

(** *** What a run does to the outside

    [EWait p]: [os.path.isfile(p)] was false and the task slept 0.3 s;
    [EOpen p]: [os.path.isfile(p)] was true and [gzip.open(p, "rb")] followed;
    [EYield r]: the generator handed [r] to its consumer. *)
Inductive event :=
| EWait (p : string)
| EOpen (p : string)
| EYield (r : Response).

(** The state a call runs in: the object store, the number of polls slept
    so far, and the events so far, oldest first. *)
Record world := World {
  heap : store;
  clock : nat;
  log : list event
}.

(** The cache directory, written by the downloader process and only read
    here: files are created atomically and never removed, so a path has the
    poll at which it becomes visible (if ever) and its decompressed
    content. *)
Record cache := Cache {
  created : string -> option nat;
  content : string -> list byte
}.

Definition isfile (c : cache) (t : nat) (p : string) : bool :=
  match created c p with
  | Some t0 => (t0 <=? t)%nat
  | None => false
  end.

(** *** Reading a binary file line by line

    [for line in file] on a file opened in mode "rb" cuts the content after
    every newline byte and keeps the newline in the line; a last line
    without newline is yielded as it is. *)
Definition NEWLINE : byte := x0a.

Fixpoint file_lines (bs : list byte) : list (list byte) :=
  match bs with
  | [] => []
  | b :: rest =>
      if Byte.eqb b NEWLINE then [b] :: file_lines rest
      else match file_lines rest with
           | [] => [[b]]
           | l :: ls => (b :: l) :: ls
           end
  end.

(** [b[lo:hi]] and [b[lo:]] on [bytes], for in-range and out-of-range
    bounds alike (slicing never raises). *)
Definition slice {A} (lo hi : nat) (b : list A) : list A := take (hi - lo) (drop lo b).
Definition slice_from {A} (lo : nat) (b : list A) : list A := drop lo b.

(** *** The monad

    A method runs on a [world] and gives a result and the world it leaves,
    or [None] when a [while] loop was cut by the step budget of the model
    (the source loops have no bound of their own). *)
Definition M (A : Type) : Type := world -> option (res A * world).

Definition ret {A} (a : A) : M A := fun w => Some (Ok a, w).
Definition raise {A} (e : exn) : M A := fun w => Some (Raise e, w).
Definition out_of_fuel {A} : M A := fun _ => None.
Definition bind {A B} (m : M A) (k : A -> M B) : M B :=
  fun w =>
    match m w with
    | Some (Ok a, w') => k a w'
    | Some (Raise e, w') => Some (Raise e, w')
    | None => None
    end.

(** A pure computation that may raise. *)
Definition lift {A} (r : res A) : M A := fun w => Some (r, w).

Definition get_heap : M store := fun w => Some (Ok (heap w), w).
Definition get_clock : M nat := fun w => Some (Ok (clock w), w).
Definition emit (e : event) : M unit :=
  fun w => Some (Ok tt, {| heap := heap w; clock := clock w; log := log w ++ [e] |}).
(** [await asyncio.sleep(0.3)]: one more poll has gone by. *)
Definition sleep : M unit :=
  fun w => Some (Ok tt, {| heap := heap w; clock := S (clock w); log := log w |}).

(** [v.attr]: only [Channel] instances have attributes here, and they have
    [name] and [symbols]. *)
Definition getattr (v : value) (attr : string) : M value :=
  fun w =>
    match v with
    | VChannel l =>
        if String.eqb attr "name" then Some (Ok (name (channels (heap w) l)), w)
        else if String.eqb attr "symbols" then Some (Ok (symbols (channels (heap w) l)), w)
        else Some (Raise (AttributeError
               ("'Channel' object has no attribute '" +:+ attr +:+ "'")), w)
    | _ => Some (Raise (AttributeError
               ("'" +:+ type_name v +:+ "' object has no attribute '" +:+ attr +:+ "'")), w)
    end.

(** [v.attr = x], the way to change a [Channel]: the validator is to be
    shown never to do it. *)
Definition setattr (v : value) (attr : string) (x : value) : M unit :=
  fun w =>
    match v with
    | VChannel l =>
        let c := channels (heap w) l in
        let c' := if String.eqb attr "name" then {| name := x; symbols := symbols c |}
                  else if String.eqb attr "symbols" then {| name := name c; symbols := x |}
                  else c in
        Some (Ok tt,
              {| heap := {| lists := lists (heap w);
                            channels := fun l' => if (l' =? l)%nat then c'
                                                  else channels (heap w) l' |};
                 clock := clock w; log := log w |})
    | _ => Some (Raise (AttributeError
               ("'" +:+ type_name v +:+ "' object has no attribute '" +:+ attr +:+ "'")), w)
    end.

(** The items of a list object, as iteration or [len] sees them. *)
Definition list_items (l : loc) : M (list value) :=
  fun w => Some (Ok (lists (heap w) l), w).

(** [d[k]] on a dict with string keys. *)
Definition dict_getitem {V} (d : gmap string V) (k : string) : res V :=
  match d !! k with
  | Some v => Ok v
  | None => Raise (KeyError k)
  end.

(** [v in l] for a list [l] of strings: equality with a string holds for
    an equal string only. *)
Definition value_in (v : value) (l : list string) : bool :=
  match v with
  | VStr s => bool_decide (s ∈ l)
  | _ => false
  end.

(** [sep.join(l)] *)
Definition join (sep : string) (l : list string) : string := String.concat sep l.

End Py.

Export Py.

Declare Scope py_scope.
Delimit Scope py_scope with py.
Notation "x <- m ;; k" := (bind m (fun x => k))
  (at level 100, m at next level, right associativity) : py_scope.
Notation "m ;;; k" := (bind m (fun _ => k))
  (at level 100, right associativity) : py_scope.
Notation "x <~ r ;; k" := (res_bind r (fun x => k))
  (at level 100, r at next level, right associativity) : py_scope.

Local Open Scope py_scope.

(** ** What the module imports

    [EXCHANGES] and [EXCHANGE_CHANNELS_INFO] come from [tardis_client.consts]
    and [get_slice_cache_path] from [tardis_client.handy]; neither file is
    part of the sources at hand, so they are taken as given, together with
    the functions of the standard library the methods call.  A str argument
    is assumed where the library wants one. *)
Class Imports := {
  (** the known exchanges, a list of str *)
  EXCHANGES : list string;
  (** exchange -> its channel names *)
  EXCHANGE_CHANNELS_INFO : gmap string (list string);
  (** [get_slice_cache_path(cache_dir, exchange, date, filters)], reading
      the filter objects in the store *)
  get_slice_cache_path : string -> string -> datetime -> store -> value -> string;
  (** [datetime.fromisoformat(s)]; [None] is its [ValueError] on a string
      it does not accept *)
  fromisoformat : string -> option datetime;
  (** [b.decode("utf-8")] *)
  decode_utf8 : list byte -> res string;
  (** [datetime.strptime(s, format)] *)
  strptime : string -> string -> res datetime;
  (** [json.loads(b)] on bytes *)
  json_loads : list byte -> res json;
  (** [format(v)], as an f-string replacement field computes it *)
  py_format : store -> value -> string
}.

(** ** tardis_client.py *)

Module Tardis.
Section WithImports.
Context `{I : Imports}.

Definition DATE_MESSAGE_SPLIT_INDEX : nat := 28.

(** The attributes [__init__] sets ([self.logger] apart: logging is not
    modelled, every [self.logger.debug] call is left out). *)
Record TardisClient := {
  endpoint : string;
  cache_dir : string;
  api_key : string
}.

(** f-string rendering of an argument that is [None] or a str. *)
Definition fmt (v : option string) : string :=
  match v with
  | None => "None"
  | Some s => s
  end.

(** [datetime.fromisoformat(v)] for [v] [None] or a str. *)
Definition py_fromisoformat (v : option string) : res datetime :=
  match v with
  | None => Raise (TypeError "fromisoformat: argument must be str")
  | Some s =>
      match fromisoformat s with
      | Some d => Ok d
      | None => Raise (ValueError ("Invalid isoformat string: '" +:+ s +:+ "'"))
      end
  end.

(** Lines 137-142. *)
Definition _try_parse_as_iso_date (date_string : option string) : res bool :=
  match py_fromisoformat date_string with
  | Ok _ => Ok true
  | Raise e => if isinstance_ValueError e then Ok false else Raise e
  end.

(** [v is None or self._try_parse_as_iso_date(v) is False] *)
Definition not_iso_date (v : option string) : res bool :=
  match v with
  | None => Ok true
  | Some _ => b <~ _try_parse_as_iso_date v ;; Ok (negb b)
  end.

(** Lines 120-135: the body of [for filter in filters], over the items
    not yet visited. *)
Fixpoint validate_filters (exchange : string) (items : list value) : M unit :=
  match items with
  | [] => ret tt
  | filter :: rest =>
      filter_name <- getattr filter "name" ;;
      channels_info <- lift (dict_getitem EXCHANGE_CHANNELS_INFO exchange) ;;
      if negb (value_in filter_name channels_info) then
        valid_channels <- lift (v <~ dict_getitem EXCHANGE_CHANNELS_INFO exchange ;;
                                Ok (join ", " v)) ;;
        h <- get_heap ;;
        raise (ValueError ("Invalid 'name' argument: " +:+ py_format h filter_name
                 +:+ ". Please provide one of the following channels: "
                 +:+ valid_channels +:+ "."))
      else
        filter_symbols <- getattr filter "symbols" ;;
        match filter_symbols with
        | VNone => validate_filters exchange rest
        | VList l =>
            syms <- list_items l ;;
            if existsb (fun symbol => Bool.eqb (isinstance_str symbol) false) syms then
              h <- get_heap ;;
              raise (ValueError ("Invalid 'symbols[]' argument: "
                       +:+ py_format h filter_symbols
                       +:+ ". Please provide list of symbol strings."))
            else validate_filters exchange rest
        | _ =>
            h <- get_heap ;;
            raise (ValueError ("Invalid 'symbols[]' argument: "
                     +:+ py_format h filter_symbols
                     +:+ ". Please provide list of symbol strings."))
        end
  end.

(** Lines 113-135: the rules on [filters]. *)
Definition check_filters (exchange : string) (filters : value) : M unit :=
  match filters with
  | VNone => ret tt
  | VList l =>
      items <- list_items l ;;
      if (0 <? length items)%nat then validate_filters exchange items else ret tt
  | _ => raise (ValueError "Invalid 'filters' argument. Please provide valid filters Channel list")
  end.

(** Lines 92-135. *)
Definition _validate_payload (exchange : string) (from_date to_date : option string)
    (filters : value) : M unit :=
  if negb (bool_decide (exchange ∈ EXCHANGES)) then
    (* the f-string of line 95 is evaluated before [ValueError] is called:
       [{exchange}] renders, [{sEXCHANGES.join(', ')}] reads a name that no
       scope binds *)
    raise (NameError "name 'sEXCHANGES' is not defined")
  else
  bad_from <- lift (not_iso_date from_date) ;;
  if bad_from then
    raise (ValueError ("Invalid 'from_date' argument: " +:+ fmt from_date
      +:+ ". Please provide valid ISO date string. https://docs.python.org/3/library/datetime.html#datetime.date.fromisoformat"))
  else
  bad_to <- lift (not_iso_date to_date) ;;
  if bad_to then
    raise (ValueError ("Invalid 'to_date' argument: " +:+ fmt to_date
      +:+ ". Please provide valid ISO date string. https://docs.python.org/3/library/datetime.html#datetime.date.fromisoformat"))
  else
  not_before <- lift (a <~ py_fromisoformat from_date ;;
                      b <~ py_fromisoformat to_date ;;
                      dt_ge a b) ;;
  if not_before then
    raise (ValueError "Invalid 'from_date' and 'to_date' arguments combination. Please provide 'to_date' date string that is later than 'from_date'.")
  else check_filters exchange filters.

(** Lines 69-76: what one non-empty line yields. *)
Definition decode_line (decode_response : bool) (line : list byte) : res Response :=
  if decode_response then
    text <~ decode_utf8 (slice 0 (DATE_MESSAGE_SPLIT_INDEX - 2) line) ;;
    timestamp <~ strptime text "%Y-%m-%dT%H:%M:%S.%f" ;;
    msg <~ json_loads (slice_from (DATE_MESSAGE_SPLIT_INDEX + 1) line) ;;
    Ok {| local_timestamp := FDatetime timestamp; message := FJson msg |}
  else
    Ok {| local_timestamp := FBytes (slice 0 DATE_MESSAGE_SPLIT_INDEX line);
          message := FBytes (slice_from (DATE_MESSAGE_SPLIT_INDEX + 1) line) |}.

(** Lines 65-76: [for line in file], over the lines not yet read;
    the result is [messages_count]. *)
Fixpoint for_line_in_file (decode_response : bool) (lines : list (list byte))
    (messages_count : nat) : M nat :=
  match lines with
  | [] => ret messages_count
  | line :: rest =>
      if (length line =? 0)%nat then
        for_line_in_file decode_response rest messages_count
      else
        let messages_count := (messages_count + 1)%nat in
        r <- lift (decode_line decode_response line) ;;
        emit (EYield r) ;;;
        for_line_in_file decode_response rest messages_count
  end.

(** Lines 52-62: [while current_slice_path is None]. *)
Fixpoint wait_for_slice (polls : nat) (self : TardisClient) (fs : cache)
    (exchange : string) (current_slice_date : datetime) (filters : value) : M string :=
  match polls with
  | O => out_of_fuel
  | S polls' =>
      h <- get_heap ;;
      let path_to_check :=
        get_slice_cache_path (cache_dir self) exchange current_slice_date h filters in
      now <- get_clock ;;
      if isfile fs now path_to_check then ret path_to_check
      else
        emit (EWait path_to_check) ;;;
        sleep ;;;
        wait_for_slice polls' self fs exchange current_slice_date filters
  end.

(** Lines 50-79: [while current_slice_date < to_date]. *)
Fixpoint slice_loop (fuel polls : nat) (self : TardisClient) (fs : cache)
    (exchange : string) (to_date : datetime) (filters : value)
    (decode_response : bool) (current_slice_date : datetime) : M unit :=
  match fuel with
  | O => out_of_fuel
  | S fuel' =>
      more <- lift (dt_lt current_slice_date to_date) ;;
      if more then
        current_slice_path <-
          wait_for_slice polls self fs exchange current_slice_date filters ;;
        emit (EOpen current_slice_path) ;;;
        messages_count <-
          for_line_in_file decode_response
            (file_lines (content fs current_slice_path)) 0 ;;
        next <- lift (dt_add_seconds current_slice_date 60) ;;
        slice_loop fuel' polls self fs exchange to_date filters decode_response next
      else ret tt
  end.

(** Lines 32-90.  [replay] is an asynchronous generator: its body runs as
    the consumer asks for items.  The model is the run under a consumer
    that takes every item; [fuel] bounds the iterations of each of the two
    [while] loops. *)
Definition replay (fuel : nat) (self : TardisClient) (fs : cache)
    (exchange : string) (from_date to_date : option string) (filters : value)
    (decode_response : bool) : M unit :=
  _validate_payload exchange from_date to_date filters ;;;
  from_date <- lift (py_fromisoformat from_date) ;;
  to_date <- lift (py_fromisoformat to_date) ;;
  let current_slice_date := from_date in
  slice_loop fuel fuel self fs exchange to_date filters decode_response
    current_slice_date.

End WithImports.
End Tardis.

(** ** The standard library, executable

    Models of the library functions of [Imports], after the documentation
    of CPython, for the statements that are evaluated on concrete slices.
    A str is held as the bytes of its UTF-8 encoding, and the models are
    written for ASCII text: a decimal digit is one of 0-9. *)

Module CPython.

Definition code (b : byte) : Z := Z.of_N (Byte.to_N b).
Definition chr (n : Z) : byte := default x00 (Byte.of_N (Z.to_N n)).

Definition digit (b : byte) : option Z :=
  if between 48 (code b) 57 then Some (code b - 48) else None.

(** Exactly [n] decimal digits at the head of [s]: their value and the
    rest. *)
Fixpoint digits (n : nat) (s : list byte) (acc : Z) : option (Z * list byte) :=
  match n with
  | O => Some (acc, s)
  | S n' =>
      match s with
      | b :: rest =>
          match digit b with
          | Some d => digits n' rest (10 * acc + d)
          | None => None
          end
      | [] => None
      end
  end.

(** [s] is [c] followed by something. *)
Definition expect (c : byte) (s : list byte) : option (list byte) :=
  match s with
  | b :: rest => if Byte.eqb b c then Some rest else None
  | [] => None
  end.

(** *** bytes.decode("utf-8"): well-formed UTF-8 or [UnicodeDecodeError] *)
Fixpoint utf8_valid (s : list byte) : bool :=
  let cont b := between 128 (code b) 191 in
  match s with
  | [] => true
  | b1 :: r1 =>
      if code b1 <=? 127 then utf8_valid r1
      else match r1 with
      | [] => false
      | b2 :: r2 =>
          if between 194 (code b1) 223 then cont b2 && utf8_valid r2
          else match r2 with
          | [] => false
          | b3 :: r3 =>
              if code b1 =? 224 then between 160 (code b2) 191 && cont b3 && utf8_valid r3
              else if code b1 =? 237 then between 128 (code b2) 159 && cont b3 && utf8_valid r3
              else if between 225 (code b1) 239 then cont b2 && cont b3 && utf8_valid r3
              else match r3 with
              | [] => false
              | b4 :: r4 =>
                  if code b1 =? 240 then
                    between 144 (code b2) 191 && cont b3 && cont b4 && utf8_valid r4
                  else if between 241 (code b1) 243 then
                    cont b2 && cont b3 && cont b4 && utf8_valid r4
                  else if code b1 =? 244 then
                    between 128 (code b2) 143 && cont b3 && cont b4 && utf8_valid r4
                  else false
              end
          end
      end
  end.

Definition decode_utf8 (b : list byte) : res string :=
  if utf8_valid b then Ok (string_of_list_byte b)
  else Raise (UnicodeDecodeError "'utf-8' codec can't decode bytes").

(** *** datetime.fromisoformat

    The documented grammar (Python 3.7 to 3.10):
    [YYYY-MM-DD[*HH[:MM[:SS[.fff[fff]]]][+HH:MM[:SS[.ffffff]]]]], where [*]
    is any one character; every failure is a [ValueError]. *)

(** [HH[:MM[:SS[.fff[fff]]]]], the whole of [s]: hour, minute, second,
    microsecond. *)
Definition parse_hh_mm_ss_ff (s : list byte) : option (Z * Z * Z * Z) :=
  '(hh, s) ← digits 2 s 0;
  match s with
  | [] => Some (hh, 0, 0, 0)
  | _ =>
    s ← expect ":" s;
    '(mm, s) ← digits 2 s 0;
    match s with
    | [] => Some (hh, mm, 0, 0)
    | _ =>
      s ← expect ":" s;
      '(ss, s) ← digits 2 s 0;
      match s with
      | [] => Some (hh, mm, ss, 0)
      | _ =>
        s ← expect "." s;
        if (length s =? 3)%nat then
          '(ms, _) ← digits 3 s 0; Some (hh, mm, ss, ms * 1000)
        else if (length s =? 6)%nat then
          '(us, _) ← digits 6 s 0; Some (hh, mm, ss, us)
        else None
      end
    end
  end.

(** The UTC offset [+HH:MM[:SS[.ffffff]]] in microseconds; a [timezone]
    wants it strictly between -24 h and 24 h. *)
Definition parse_utcoffset (negative : bool) (s : list byte) : option Z :=
  if (length s =? 5)%nat || (length s =? 8)%nat || (length s =? 15)%nat then
    '(hh, mm, ss, us) ← parse_hh_mm_ss_ff s;
    let off := ((hh * 3600 + mm * 60 + ss) * MICROS_PER_SECOND + us) in
    if off <? MICROS_PER_DAY then Some (if negative then - off else off) else None
  else None.

(** Cut [s] before its first sign character. *)
Fixpoint split_sign (s : list byte) : list byte * option (bool * list byte) :=
  match s with
  | [] => ([], None)
  | b :: rest =>
      if Byte.eqb b "+" then ([], Some (false, rest))
      else if Byte.eqb b "-" then ([], Some (true, rest))
      else let '(t, z) := split_sign rest in (b :: t, z)
  end.

Definition parse_isoformat (s : list byte) : option datetime :=
  '(year, s) ← digits 4 s 0;
  s ← expect "-" s;
  '(month, s) ← digits 2 s 0;
  s ← expect "-" s;
  '(day, s) ← digits 2 s 0;
  match s with
  | [] => mk_datetime year month day 0 0 0 0 None
  | _ :: [] => None
  | _ :: tstr =>
      let '(t, z) := split_sign tstr in
      '(hh, mm, ss, us) ← parse_hh_mm_ss_ff t;
      match z with
      | None => mk_datetime year month day hh mm ss us None
      | Some (negative, zstr) =>
          off ← parse_utcoffset negative zstr;
          mk_datetime year month day hh mm ss us (Some off)
      end
  end.

Definition fromisoformat (date_string : string) : option datetime :=
  parse_isoformat (list_byte_of_string date_string).

(** *** datetime.strptime

    The format is turned into a sequence of directives and matched from the
    left as the regular expression of [_strptime] does: each directive
    offers its readings in order of preference, the first reading under
    which the rest of the format matches is taken, and what is left of the
    text afterwards is "unconverted data".  Formats made of [%Y %m %d %H %M
    %S %f] and characters other than white space are interpreted, which
    covers the format of this module. *)
Inductive directive :=
| DYear | DMonth | DDay | DHour | DMinute | DSecond | DMicro
| DChar (c : byte).

Fixpoint parse_format (f : list byte) : option (list directive) :=
  match f with
  | [] => Some []
  | c :: rest =>
      if Byte.eqb c "%" then
        match rest with
        | d :: rest' =>
            ds ← parse_format rest';
            if Byte.eqb d "Y" then Some (DYear :: ds)
            else if Byte.eqb d "m" then Some (DMonth :: ds)
            else if Byte.eqb d "d" then Some (DDay :: ds)
            else if Byte.eqb d "H" then Some (DHour :: ds)
            else if Byte.eqb d "M" then Some (DMinute :: ds)
            else if Byte.eqb d "S" then Some (DSecond :: ds)
            else if Byte.eqb d "f" then Some (DMicro :: ds)
            else if Byte.eqb d "%" then Some (DChar "%" :: ds)
            else None
        | [] => None
        end
      else if Byte.eqb c " " || between 9 (code c) 13 then None
      else ds ← parse_format rest; Some (DChar c :: ds)
  end.

(** Readings of a number of one or two digits: the two-digit one first. *)
Definition one_or_two (ok2 : Z -> Z -> bool) (ok1 : Z -> bool) (s : list byte)
    : list (Z * list byte) :=
  match s with
  | b1 :: r1 =>
      match digit b1 with
      | Some d1 =>
          match r1 with
          | b2 :: r2 =>
              match digit b2 with
              | Some d2 => if ok2 d1 d2 then [(10 * d1 + d2, r2)] else []
              | None => []
              end
          | [] => []
          end ++ (if ok1 d1 then [(d1, r1)] else [])
      | None => []
      end
  | [] => []
  end.

(** [[0-9]{1,6}], longest first; the value is padded to microseconds. *)
Fixpoint fraction (n : nat) (s : list byte) (acc : Z) (pad : Z) : list (Z * list byte) :=
  match n with
  | O => []
  | S n' =>
      match s with
      | b :: rest =>
          match digit b with
          | Some d => fraction n' rest (10 * acc + d) (pad / 10)
                        ++ [((10 * acc + d) * (pad / 10), rest)]
          | None => []
          end
      | [] => []
      end
  end.

Definition lower (b : byte) : byte :=
  if between 65 (code b) 90 then chr (code b + 32) else b.

(** The fields [strptime] collects; 1900-01-01T00:00:00 where the format
    has no directive for one. *)
Record fields := Fields { fY : Z; fm : Z; fd : Z; fH : Z; fM : Z; fS : Z; ff : Z }.

Definition readings (d : directive) (v : fields) (s : list byte)
    : list (fields * list byte) :=
  let set (upd : Z -> fields) := map (fun '(n, r) => (upd n, r)) in
  match d with
  | DYear =>
      match digits 4 s 0 with
      | Some (n, r) => [(Fields n (fm v) (fd v) (fH v) (fM v) (fS v) (ff v), r)]
      | None => []
      end
  | DMonth =>
      set (fun n => Fields (fY v) n (fd v) (fH v) (fM v) (fS v) (ff v))
        (one_or_two (fun a b => ((a =? 1) && (b <=? 2)) || ((a =? 0) && (1 <=? b)))
                    (fun a => 1 <=? a) s)
  | DDay =>
      set (fun n => Fields (fY v) (fm v) n (fH v) (fM v) (fS v) (ff v))
        (one_or_two (fun a b => ((a =? 3) && (b <=? 1)) || between 1 a 2
                                || ((a =? 0) && (1 <=? b)))
                    (fun a => 1 <=? a) s
         ++ match s with
            | sp :: b :: r =>
                match digit b with
                | Some n => if Byte.eqb sp " " && (1 <=? n) then [(n, r)] else []
                | None => []
                end
            | _ => []
            end)%list
  | DHour =>
      set (fun n => Fields (fY v) (fm v) (fd v) n (fM v) (fS v) (ff v))
        (one_or_two (fun a b => ((a =? 2) && (b <=? 3)) || (a <=? 1)) (fun _ => true) s)
  | DMinute =>
      set (fun n => Fields (fY v) (fm v) (fd v) (fH v) n (fS v) (ff v))
        (one_or_two (fun a _ => a <=? 5) (fun _ => true) s)
  | DSecond =>
      set (fun n => Fields (fY v) (fm v) (fd v) (fH v) (fM v) n (ff v))
        (one_or_two (fun a b => ((a =? 6) && (b <=? 1)) || (a <=? 5)) (fun _ => true) s)
  | DMicro =>
      set (fun n => Fields (fY v) (fm v) (fd v) (fH v) (fM v) (fS v) n)
        (fraction 6 s 0 1000000)
  | DChar c =>
      match s with
      | b :: r => if Byte.eqb (lower b) (lower c) then [(v, r)] else []
      | [] => []
      end
  end.

(** The first reading of the whole format, if any. *)
Fixpoint match_format (ds : list directive) (v : fields) (s : list byte)
    : option (fields * list byte) :=
  match ds with
  | [] => Some (v, s)
  | d :: ds' =>
      (fix try (alts : list (fields * list byte)) :=
         match alts with
         | [] => None
         | (v', s') :: more =>
             match match_format ds' v' s' with
             | Some r => Some r
             | None => try more
             end
         end) (readings d v s)
  end.

Definition strptime (data_string format : string) : res datetime :=
  match parse_format (list_byte_of_string format) with
  | None => Raise (ValueError ("bad directive in format '" +:+ format +:+ "'"))
  | Some ds =>
      match match_format ds (Fields 1900 1 1 0 0 0 0) (list_byte_of_string data_string) with
      | None =>
          Raise (ValueError ("time data '" +:+ data_string
                   +:+ "' does not match format '" +:+ format +:+ "'"))
      | Some (v, []) =>
          match mk_datetime (fY v) (fm v) (fd v) (fH v) (fM v) (fS v) (ff v) None with
          | Some d => Ok d
          | None => Raise (ValueError "value out of range")
          end
      | Some (_, rest) =>
          Raise (ValueError ("unconverted data remains: " +:+ string_of_list_byte rest))
      end
  end.

(** *** json.loads on bytes

    The input is read as UTF-8 (the guess CPython makes for input without a
    byte-order mark or NUL bytes) and scanned as [json.decoder] does in its
    default, strict configuration.  The recursion limit of the interpreter
    is not modelled: [fuel] counts the values entered, nested or in a row,
    and [json_loads] gives two units for every byte, which no text can use
    up. *)
Definition jerr {A} (msg : string) : res A := Raise (JSONDecodeError msg).

Definition is_ws (b : byte) : bool :=
  Byte.eqb b " " || (code b =? 9) || (code b =? 10) || (code b =? 13).

Fixpoint skip_ws (s : list byte) : list byte :=
  match s with
  | b :: r => if is_ws b then skip_ws r else s
  | [] => []
  end.

Fixpoint starts_with (p s : list byte) : option (list byte) :=
  match p, s with
  | [], _ => Some s
  | a :: p', b :: s' => if Byte.eqb a b then starts_with p' s' else None
  | _ :: _, [] => None
  end.

Definition utf8_encode (c : Z) : list byte :=
  if c <? 128 then [chr c]
  else if c <? 2048 then [chr (192 + c / 64); chr (128 + c mod 64)]
  else if c <? 65536 then
    [chr (224 + c / 4096); chr (128 + (c / 64) mod 64); chr (128 + c mod 64)]
  else [chr (240 + c / 262144); chr (128 + (c / 4096) mod 64);
        chr (128 + (c / 64) mod 64); chr (128 + c mod 64)].

Definition hexdigit (b : byte) : option Z :=
  if between 48 (code b) 57 then Some (code b - 48)
  else if between 97 (code b) 102 then Some (code b - 87)
  else if between 65 (code b) 70 then Some (code b - 55)
  else None.

(** The four hexadecimal digits of a [\u] escape. *)
Definition hex4 (s : list byte) : option (Z * list byte) :=
  match s with
  | a :: b :: c :: d :: r =>
      a ← hexdigit a; b ← hexdigit b; c ← hexdigit c; d ← hexdigit d;
      Some (((a * 16 + b) * 16 + c) * 16 + d, r)
  | _ => None
  end.

Definition QUOTE : byte := x22.
Definition BACKSLASH : byte := x5c.

(** The content of a string literal, [s] starting after its opening quote:
    the decoded text and what follows the closing quote. *)
Fixpoint scanstring (fuel : nat) (s : list byte) (acc : list byte)
    : res (list byte * list byte) :=
  match fuel, s with
  | O, _ | _, [] => jerr "Unterminated string starting at"
  | S fuel', c :: r =>
      if Byte.eqb c QUOTE then Ok (acc, r)
      else if Byte.eqb c BACKSLASH then
        match r with
        | [] => jerr "Unterminated string starting at"
        | e :: r' =>
            let plain b := scanstring fuel' r' (acc ++ [b]) in
            if Byte.eqb e QUOTE then plain QUOTE
            else if Byte.eqb e BACKSLASH then plain BACKSLASH
            else if Byte.eqb e "/" then plain "/"%byte
            else if Byte.eqb e "b" then plain x08
            else if Byte.eqb e "f" then plain x0c
            else if Byte.eqb e "n" then plain x0a
            else if Byte.eqb e "r" then plain x0d
            else if Byte.eqb e "t" then plain x09
            else if Byte.eqb e "u" then
              match hex4 r' with
              | None => jerr "Invalid \uXXXX escape"
              | Some (uni, r2) =>
                  let single := scanstring fuel' r2 (acc ++ utf8_encode uni) in
                  if between 55296 uni 56319 then
                    match starts_with [BACKSLASH; "u"%byte] r2 with
                    | Some r3 =>
                        match hex4 r3 with
                        | Some (uni2, r4) =>
                            if between 56320 uni2 57343 then
                              scanstring fuel' r4
                                (acc ++ utf8_encode
                                   (65536 + (uni - 55296) * 1024 + (uni2 - 56320)))
                            else single
                        | None => single
                        end
                    | None => single
                    end
                  else single
              end
            else jerr "Invalid \escape"
        end
      else if code c <? 32 then jerr "Invalid control character at"
      else scanstring fuel' r (acc ++ [c])
  end.

(** A run of decimal digits: the digits and the rest. *)
Fixpoint span_digits (s : list byte) : list byte * list byte :=
  match s with
  | b :: r =>
      match digit b with
      | Some _ => let '(ds, rest) := span_digits r in (b :: ds, rest)
      | None => ([], s)
      end
  | [] => ([], [])
  end.

Definition decimal (ds : list byte) : Z :=
  fold_left (fun acc b => 10 * acc + default 0 (digit b)) ds 0.

(** The number at the head of [s], after [NUMBER_RE]: an optional minus
    sign, then 0 or a run of digits that does not start with 0, then an
    optional fraction (a dot and digits) and an optional exponent (e or E,
    an optional sign, digits).  An [int] when there is no fraction and no
    exponent. *)
Definition match_number (s : list byte) : option (json * list byte) :=
  let '(neg, s1) := match starts_with ["-"%byte] s with
                    | Some r => (true, r)
                    | None => (false, s)
                    end in
  let '(ds, s2) := span_digits s1 in
  '(int_part, s2) ← match ds with
                    | [] => None
                    | d :: more =>
                        if Byte.eqb d "0" then Some ([d], (more ++ s2)%list)
                        else Some (ds, s2)
                    end;
  let '(frac, s3) :=
    match starts_with ["."%byte] s2 with
    | Some r => match span_digits r with
                | ([], _) => ([], s2)
                | (fs, r') => (("."%byte :: fs), r')
                end
    | None => ([], s2)
    end in
  let '(exp, s4) :=
    match s3 with
    | e :: r =>
        if Byte.eqb e "e" || Byte.eqb e "E" then
          let '(sign, r1) :=
            match r with
            | sg :: r' => if Byte.eqb sg "+" || Byte.eqb sg "-" then ([sg], r') else ([], r)
            | [] => ([], r)
            end in
          match span_digits r1 with
          | ([], _) => ([], s3)
          | (es, r2) => ((e :: sign ++ es)%list, r2)
          end
        else ([], s3)
    | [] => ([], s3)
    end in
  match frac, exp with
  | [], [] => Some (JInt (if neg then - decimal int_part else decimal int_part), s4)
  | _, _ =>
      Some (JFloat (string_of_list_byte
                      ((if neg then ["-"%byte] else []) ++ int_part ++ frac ++ exp)%list), s4)
  end.

(** [dict[k] = v]: a key already there keeps its place. *)
Fixpoint dict_set (k : string) (v : json) (d : list (string * json))
    : list (string * json) :=
  match d with
  | [] => [(k, v)]
  | (k', v') :: r => if String.eqb k k' then (k, v) :: r else (k', v') :: dict_set k v r
  end.

Definition literal (word : string) (v : json) (s : list byte) : option (json * list byte) :=
  r ← starts_with (list_byte_of_string word) s; Some (v, r).

Fixpoint scan_once (fuel : nat) (s : list byte) : res (json * list byte) :=
  match fuel with
  | O => Raise (RecursionError "maximum recursion depth exceeded")
  | S fuel' =>
      match s with
      | [] => jerr "Expecting value"
      | c :: rest =>
          if Byte.eqb c QUOTE then
            p <~ scanstring (length rest) rest [] ;;
            let '(str, r) := p in
            Ok (JStr (string_of_list_byte str), r)
          else if Byte.eqb c "{" then
            match skip_ws rest with
            | b :: r =>
                if Byte.eqb b "}" then Ok (JObj [], r)
                else if Byte.eqb b QUOTE then members fuel' r []
                else jerr "Expecting property name enclosed in double quotes"
            | [] => jerr "Expecting property name enclosed in double quotes"
            end
          else if Byte.eqb c "[" then
            match skip_ws rest with
            | b :: r => if Byte.eqb b "]" then Ok (JArr [], r)
                        else elements fuel' (b :: r) []
            | [] => jerr "Expecting value"
            end
          else
            match literal "null" JNull s, literal "true" (JBool true) s,
                  literal "false" (JBool false) s, match_number s,
                  literal "NaN" (JFloat "NaN") s, literal "Infinity" (JFloat "Infinity") s,
                  literal "-Infinity" (JFloat "-Infinity") s with
            | Some r, _, _, _, _, _, _ | None, Some r, _, _, _, _, _
            | None, None, Some r, _, _, _, _ | None, None, None, Some r, _, _, _
            | None, None, None, None, Some r, _, _
            | None, None, None, None, None, Some r, _
            | None, None, None, None, None, None, Some r => Ok r
            | None, None, None, None, None, None, None => jerr "Expecting value"
            end
      end
  end
with members (fuel : nat) (s : list byte) (pairs : list (string * json))
    : res (json * list byte) :=
  match fuel with
  | O => Raise (RecursionError "maximum recursion depth exceeded")
  | S fuel' =>
      p <~ scanstring (length s) s [] ;;
      let '(key, r) := p in
      match skip_ws r with
      | colon :: r1 =>
          if negb (Byte.eqb colon ":") then jerr "Expecting ':' delimiter"
          else
            p <~ scan_once fuel' (skip_ws r1) ;;
            let '(v, r2) := p in
            let pairs := dict_set (string_of_list_byte key) v pairs in
            match skip_ws r2 with
            | b :: r3 =>
                if Byte.eqb b "}" then Ok (JObj pairs, r3)
                else if Byte.eqb b "," then
                  match skip_ws r3 with
                  | q :: r4 =>
                      if Byte.eqb q QUOTE then members fuel' r4 pairs
                      else jerr "Expecting property name enclosed in double quotes"
                  | [] => jerr "Expecting property name enclosed in double quotes"
                  end
                else jerr "Expecting ',' delimiter"
            | [] => jerr "Expecting ',' delimiter"
            end
      | [] => jerr "Expecting ':' delimiter"
      end
  end
with elements (fuel : nat) (s : list byte) (values : list json)
    : res (json * list byte) :=
  match fuel with
  | O => Raise (RecursionError "maximum recursion depth exceeded")
  | S fuel' =>
      p <~ scan_once fuel' s ;;
      let '(v, r) := p in
      let values := (values ++ [v])%list in
      match skip_ws r with
      | b :: r1 =>
          if Byte.eqb b "]" then Ok (JArr values, r1)
          else if Byte.eqb b "," then elements fuel' (skip_ws r1) values
          else jerr "Expecting ',' delimiter"
      | [] => jerr "Expecting ',' delimiter"
      end
  end.

Definition json_loads (b : list byte) : res json :=
  if negb (utf8_valid b) then
    Raise (UnicodeDecodeError "'utf-8' codec can't decode bytes")
  else
    p <~ scan_once (2 * length b + 2) (skip_ws b) ;;
    let '(v, r) := p in
    match skip_ws r with
    | [] => Ok v
    | _ => jerr "Extra data"
    end.

End CPython.
(** ** A concrete setting

    An instance of [Imports] on the models of [CPython], and the objects of
    the scenarios that are evaluated below. *)

Module Demo.

Definition bytes (s : string) : list byte := list_byte_of_string s.

(** Modelled from the spec: tardis_client/consts.py is not among the
    sources.  "exchange must be a member of a known exchange set" and "a
    static mapping of exchange identifiers to the set of valid channel names
    for that exchange": two exchanges with two channels each stand for
    them. *)
Definition EXCHANGES : list string := ["bitmex"; "deribit"].
Definition EXCHANGE_CHANNELS_INFO : gmap string (list string) :=
  {[ "bitmex" := ["trade"; "orderBookL2"]; "deribit" := ["trades"; "book"] ]}.

(** [format(v)]: [str] of the value; a str inside a list is quoted. *)
Fixpoint render (depth : nat) (quoted : bool) (h : store) (v : value) : string :=
  match v with
  | VNone => "None"
  | VBool b => if b then "True" else "False"
  | VInt n => pretty n
  | VStr s => if quoted then "'" +:+ s +:+ "'" else s
  | VList l =>
      match depth with
      | O => "[...]"
      | S depth' => "[" +:+ join ", " (map (render depth' true h) (lists h l)) +:+ "]"
      end
  | VChannel l =>
      match depth with
      | O => "Channel(...)"
      | S depth' =>
          "Channel(" +:+ render depth' true h (name (channels h l)) +:+ ", "
            +:+ render depth' true h (symbols (channels h l)) +:+ ")"
      end
  end.

Definition py_format (h : store) (v : value) : string := render 4 false h v.

(** Modelled from the spec: tardis_client/handy.py is not among the
    sources.  "The path encodes exchange, a canonical slice-start
    representation (minute-granularity, since slices are 60 seconds), and a
    stable serialization of the filter set": the minute of the slice start,
    counted from [datetime.min], and the rendering of the filters. *)
Definition get_slice_cache_path (cache_dir exchange : string) (date : datetime)
    (h : store) (filters : value) : string :=
  cache_dir +:+ "/feeds/" +:+ exchange +:+ "/" +:+ render 4 true h filters
    +:+ "/" +:+ pretty (micros date / (60 * MICROS_PER_SECOND)) +:+ ".json.gz".

Definition imports : Imports :=
  Build_Imports EXCHANGES EXCHANGE_CHANNELS_INFO get_slice_cache_path
    CPython.fromisoformat CPython.decode_utf8 CPython.strptime CPython.json_loads
    py_format.

Definition client : Tardis.TardisClient :=
  {| Tardis.endpoint := "https://tardis.dev/api";
     Tardis.cache_dir := "/tmp/.tardis-cache";
     Tardis.api_key := "" |}.

(** The objects of a request: list 0 is [[Channel("trade", ["XBTUSD"])]],
    list 1 its symbols; every other list is empty. *)
Definition heap0 : store :=
  {| lists := fun l => match l with
                       | O => [VChannel 0]
                       | 1%nat => [VStr "XBTUSD"]
                       | _ => []
                       end;
     channels := fun _ => {| name := VStr "trade"; symbols := VList 1 |} |}.

Definition w0 : world := {| heap := heap0; clock := 0%nat; log := [] |}.

(** A cache directory from a list of (path, (poll of creation, content)). *)
Definition cache_of (files : list (string * (nat * list byte))) : cache :=
  {| created := fun p =>
       fst <$> (snd <$> List.find (fun f => String.eqb (fst f) p) files);
     content := fun p =>
       default [] (snd <$> (snd <$> List.find (fun f => String.eqb (fst f) p) files)) |}.

(** The path of the slice that starts [k] minutes after 2021-01-01T00:00:00,
    for exchange bitmex and no filters. *)
Definition minute_path (k : Z) : string :=
  get_slice_cache_path (Tardis.cache_dir client) "bitmex"
    {| micros := 63745056000000000 + k * 60 * MICROS_PER_SECOND; tzinfo := None |}
    heap0 VNone.

(** A record line as the producer writes it: a timestamp of 28 bytes, a
    space, the payload, a newline. *)
Definition record_line (stamp payload : string) : list byte :=
  (bytes stamp ++ bytes " " ++ bytes payload ++ [NEWLINE])%list.

(** The JSON text {"a":1}. *)
Definition a1 : string :=
  string_of_list_byte ("{"%byte :: x22 :: "a"%byte :: x22 :: bytes ":1}")%list.

(** The line of the decoding example of the specification, whose
    timestamp has 26 bytes, and the same record with a timestamp of 28. *)
Definition line26 : list byte := record_line "2021-01-01T00:00:00.123456" a1.
Definition line28 : list byte := record_line "2021-01-01T00:00:00.1234567Z" a1.

(** What [line28] decodes to. *)
Definition record28 : Response :=
  {| local_timestamp := FDatetime {| micros := 63745056000123456; tzinfo := None |};
     message := FJson (JObj [("a", JInt 1)]) |}.

(** A cache with one slice, for the minute from 2021-01-01T00:00:00. *)
Definition one_slice (body : list byte) : cache :=
  cache_of [(minute_path 0, (0%nat, body))].

(** Three records, and the cache of the end-to-end scenario: the slices of
    minutes 0 and 1 with three records and none, and a slice for minute 2
    that is outside the range asked for. *)
Definition three_lines : list byte :=
  (record_line "2021-01-01T00:00:01.0000000Z" "[1]"
   ++ record_line "2021-01-01T00:00:02.5000000Z" "[2]"
   ++ record_line "2021-01-01T00:00:59.9999999Z" "[3]")%list.

Definition three_records : list Response :=
  [ {| local_timestamp := FDatetime {| micros := 63745056001000000; tzinfo := None |};
       message := FJson (JArr [JInt 1]) |};
    {| local_timestamp := FDatetime {| micros := 63745056002500000; tzinfo := None |};
       message := FJson (JArr [JInt 2]) |};
    {| local_timestamp := FDatetime {| micros := 63745056059999999; tzinfo := None |};
       message := FJson (JArr [JInt 3]) |} ].

Definition two_slices : cache :=
  cache_of [(minute_path 0, (0%nat, three_lines));
            (minute_path 1, (0%nat, []));
            (minute_path 2, (0%nat, line28))].

Definition records_of_two_slices (k : nat) : list Response :=
  match k with
  | O => three_records
  | _ => []
  end.

(** A slice whose second line has no timestamp, written after two polls. *)
Definition torn_slice : cache :=
  cache_of [(minute_path 0,
             (2%nat, (line28 ++ bytes "garbage" ++ [NEWLINE] ++ line28)%list));
            (minute_path 1, (0%nat, line28))].

(** The last minute there is: the slice that starts at 9999-12-31T23:59:00,
    present and empty. *)
Definition last_minute_path : string :=
  get_slice_cache_path (Tardis.cache_dir client) "bitmex"
    {| micros := 315537897540000000; tzinfo := None |} heap0 VNone.

Definition last_minute : cache := cache_of [(last_minute_path, (0%nat, []))].

(** Objects for the rules on the filters.  List 0 holds a filter on a
    channel of bitmex, a filter on a channel it does not have, and a third
    filter; list 2 holds a filter and then a channel name where a filter
    should be; list 3 holds a filter whose symbols (list 1) are a string and
    a number. *)
Definition heap1 : store :=
  {| lists := fun l => match l with
                       | O => [VChannel 0; VChannel 1; VChannel 2]
                       | 1%nat => [VStr "XBTUSD"; VInt 1]
                       | 2%nat => [VChannel 0; VStr "trade"]
                       | 3%nat => [VChannel 3]
                       | _ => []
                       end;
     channels := fun c => match c with
                          | O => {| name := VStr "trade"; symbols := VNone |}
                          | 1%nat => {| name := VStr "quotes"; symbols := VNone |}
                          | 3%nat => {| name := VStr "trade"; symbols := VList 1 |}
                          | _ => {| name := VStr "orderBookL2"; symbols := VNone |}
                          end |}.

Definition w1 : world := {| heap := heap1; clock := 0%nat; log := [] |}.

(** The same imports with a registry that has no exchange at all. *)
Definition imports_without_registry : Imports :=
  Build_Imports EXCHANGES ∅ get_slice_cache_path
    CPython.fromisoformat CPython.decode_utf8 CPython.strptime CPython.json_loads
    py_format.

(** A cache whose second slice is never written. *)
Definition second_slice_missing : cache :=
  cache_of [(minute_path 0, (1%nat, three_lines))].

(** A client with another endpoint and a key, on the same cache
    directory. *)
Definition other_client : Tardis.TardisClient :=
  {| Tardis.endpoint := "https://example.org/api";
     Tardis.cache_dir := "/tmp/.tardis-cache";
     Tardis.api_key := "secret" |}.

(** [line28] with other bytes at offsets 26, 27 and 28. *)
Definition line28_other_gap : list byte :=
  (bytes "2021-01-01T00:00:00.12345699#" ++ bytes a1 ++ [NEWLINE])%list.

(** The last two minutes there are, each with the record of [line28]. *)
Definition minute_before_last_path : string :=
  get_slice_cache_path (Tardis.cache_dir client) "bitmex"
    {| micros := 315537897480000000; tzinfo := None |} heap0 VNone.

Definition last_two_minutes : cache :=
  cache_of [(minute_before_last_path, (0%nat, line28));
            (last_minute_path, (1%nat, line28))].

End Demo.

(** ** Vocabulary of the statements *)

(** [InvalidArgument] and [MalformedRecord] are the names the specification
    gives to failures; the source has no exception class of its own.  A
    failed validation is a [ValueError] raised by [_validate_payload]; a
    malformed record is whatever the failing parser raises, which nothing
    catches. *)
Definition InvalidArgument (e : exn) : Prop := exists msg, e = ValueError msg.

(** A computation that leaves the world as it found it, whatever it
    returns or raises. *)
Definition readonly {A} (m : M A) : Prop :=
  forall w, exists r, m w = Some (r, w).

(** A computation whose exceptions all satisfy [P]. *)
Definition raises_only {A} (P : exn -> Prop) (m : M A) : Prop :=
  forall w e w', m w = Some (Raise e, w') -> P e.

Definition is_KeyError (e : exn) : Prop := exists k, e = KeyError k.

(** [is_Some (tzinfo d)]: the value is aware. *)
Definition aware (d : datetime) : bool :=
  match tzinfo d with Some _ => true | None => false end.

(** The world after more polls and more events. *)
Definition extend (w : world) (t : nat) (evs : list event) : world :=
  {| heap := heap w; clock := t; log := log w ++ evs |}.

(** What raw mode makes of a line: the bytes before offset 28 and the bytes
    from offset 29 on. *)
Definition raw_response (line : list byte) : Response :=
  {| local_timestamp := FBytes (slice 0 28 line);
     message := FBytes (slice_from 29 line) |}.

Definition nonempty (line : list byte) : bool := negb (length line =? 0)%nat.

(** The raw response to [line] splits it around one byte: the two fields
    and a delimiter between them give the line back. *)
Definition reconstructs `{I : Imports} (line : list byte) : Prop :=
  exists prefix delimiter suffix,
    Tardis.decode_line false line
      = Ok {| local_timestamp := FBytes prefix; message := FBytes suffix |}
    /\ (prefix ++ [delimiter] ++ suffix)%list = line.

(** The two parses of decoding mode, as line 71 and line 74 make them. *)
Definition parse_timestamp `{I : Imports} (line : list byte) : res datetime :=
  text <~ decode_utf8 (slice 0 (Tardis.DATE_MESSAGE_SPLIT_INDEX - 2) line) ;;
  strptime text "%Y-%m-%dT%H:%M:%S.%f".

Definition parse_payload `{I : Imports} (line : list byte) : res json :=
  json_loads (slice_from (Tardis.DATE_MESSAGE_SPLIT_INDEX + 1) line).

(** [line] is malformed, and [e] is what its decoding raises: the
    timestamp does not parse, or it does and the payload is not JSON. *)
Definition malformed `{I : Imports} (line : list byte) (e : exn) : Prop :=
  parse_timestamp line = Raise e
  \/ ((exists d, parse_timestamp line = Ok d) /\ parse_payload line = Raise e).

(** Every line of [lines] decodes, to the record at the same place in
    [rs]. *)
Definition decodes `{I : Imports} (decode_response : bool)
    (lines : list (list byte)) (rs : list Response) : Prop :=
  Forall2 (fun line r => Tardis.decode_line decode_response line = Ok r) lines rs.

(** The slice cursor after [k] slices, the number of slices of a range, and
    the datetimes there are. *)
Definition cursor (from_date : datetime) (k : nat) : datetime :=
  {| micros := micros from_date + Z.of_nat k * (60 * MICROS_PER_SECOND);
     tzinfo := tzinfo from_date |}.

Definition slice_count (from_date to_date : datetime) : nat :=
  Z.to_nat ((utc_micros to_date - utc_micros from_date + (60 * MICROS_PER_SECOND - 1))
            / (60 * MICROS_PER_SECOND)).

Definition valid_datetime (d : datetime) : Prop := 0 <= micros d <= MAX_MICROS.

(** The events of one slice: [waits] polls that found nothing, the file
    opened, its records yielded in order. *)
Definition slice_events (path : string) (waits : nat) (rs : list Response) : list event :=
  (repeat (EWait path) waits ++ [EOpen path] ++ map EYield rs)%list.

(** The path of the slice that starts at [c], as [replay] asks for it. *)
Definition slice_path `{I : Imports} (self : Tardis.TardisClient) (exchange : string)
    (filters : value) (h : store) (c : datetime) : string :=
  get_slice_cache_path (Tardis.cache_dir self) exchange c h filters.

(** What lines 127-135 accept as the [symbols] of a filter, and lines
    121-135 as a filter, given the channels of the exchange. *)
Definition valid_symbols (h : store) (v : value) : bool :=
  match v with
  | VNone => true
  | VList l => forallb isinstance_str (lists h l)
  | _ => false
  end.

Definition valid_filter (h : store) (channels_info : list string) (v : value) : bool :=
  match v with
  | VChannel l =>
      value_in (name (channels h l)) channels_info
      && valid_symbols h (symbols (channels h l))
  | _ => false
  end.

(** What lines 113-135 accept as [filters]: [None], the empty list, or a
    list of valid filters for an exchange the registry knows. *)
Definition valid_filters `{I : Imports} (h : store) (exchange : string)
    (filters : value) : Prop :=
  match filters with
  | VNone => True
  | VList l =>
      lists h l = []
      \/ exists channels_info,
           EXCHANGE_CHANNELS_INFO !! exchange = Some channels_info
           /\ forallb (valid_filter h channels_info) (lists h l) = true
  | _ => False
  end.

(** The two dates of a request that validation accepts: both are strings
    that parse, to datetimes of the same kind, the first before the
    second. *)
Definition valid_dates `{I : Imports} (from_date to_date : option string) : Prop :=
  exists sf st d1 d2,
    from_date = Some sf /\ to_date = Some st
    /\ fromisoformat sf = Some d1 /\ fromisoformat st = Some d2
    /\ aware d1 = aware d2 /\ utc_micros d1 < utc_micros d2.


(** ** The datetimes of the library

    What [mk_datetime] accepts lies between [datetime.min] and
    [datetime.max], so every datetime [CPython.fromisoformat] returns is
    one. *)

Lemma between_spec lo x hi : between lo x hi = true <-> lo <= x <= hi.
Proof. unfold between. rewrite andb_true_iff, !Z.leb_le. tauto. Qed.

Lemma days_before_year_bounds y :
  1 <= y <= 9999 ->
  0 <= _days_before_year y <= 3651694
  /\ (y <= 9998 -> _days_before_year y <= 3651329).
Proof.
  intros Hy. unfold _days_before_year. cbv zeta.
  Z.to_euclidean_division_equations. lia.
Qed.

Lemma day_of_year_bounds y m d :
  1 <= m <= 12 -> 1 <= d <= _days_in_month y m ->
  1 <= _days_before_month y m + d <= 366
  /\ (_is_leap y = false -> _days_before_month y m + d <= 365).
Proof.
  intros Hm Hd.
  assert (m = 1 \/ m = 2 \/ m = 3 \/ m = 4 \/ m = 5 \/ m = 6 \/ m = 7 \/ m = 8
          \/ m = 9 \/ m = 10 \/ m = 11 \/ m = 12) as Hcases by lia.
  unfold _days_before_month, _days_in_month in *.
  destruct (_is_leap y);
    repeat (destruct Hcases as [->|Hcases];
            [simpl in *; split; [lia|intros; try discriminate; lia]|]);
    subst; simpl in *; (split; [lia|intros; try discriminate; lia]).
Qed.

Lemma mk_datetime_valid y m d H M S us tz dt :
  mk_datetime y m d H M S us tz = Some dt -> valid_datetime dt.
Proof.
  unfold mk_datetime.
  destruct (_ && _) eqn:E; [|discriminate]. intros [= <-].
  rewrite !andb_true_iff, !between_spec in E.
  destruct E as [[[[[[Hy Hm] Hd] HH] HM] HS] Hus].
  destruct (days_before_year_bounds y Hy) as [Hby Hby'].
  destruct (day_of_year_bounds y m d Hm Hd) as [Hdy Hdy'].
  unfold valid_datetime, MAX_MICROS, MAXORDINAL, MICROS_PER_DAY, MICROS_PER_SECOND,
    _ymd2ord. cbn [micros].
  destruct (Z.eq_dec y 9999) as [->|Hne].
  - specialize (Hdy' eq_refl). change (_days_before_year 9999) with 3651694 in *. lia.
  - specialize (Hby' ltac:(lia)). lia.
Qed.

Lemma fromisoformat_valid s d :
  CPython.fromisoformat s = Some d -> valid_datetime d.
Proof.
  unfold CPython.fromisoformat, CPython.parse_isoformat. intros H.
  repeat (simplify_option_eq; repeat case_match);
    eauto using mk_datetime_valid.
Qed.

(** ** Validation *)

Section Validation.
Context `{I : Imports}.
Import Tardis.

Lemma readonly_ret {A} (a : A) : readonly (ret a).
Proof. intros w. by exists (Ok a). Qed.

Lemma readonly_raise {A} e : readonly (@raise A e).
Proof. intros w. by exists (Raise e). Qed.

Lemma readonly_lift {A} (r : res A) : readonly (lift r).
Proof. intros w. by exists r. Qed.

Lemma readonly_bind {A B} (m : M A) (k : A -> M B) :
  readonly m -> (forall a, readonly (k a)) -> readonly (bind m k).
Proof.
  intros Hm Hk w. unfold bind. destruct (Hm w) as [r ->].
  destruct r as [a|e]; [apply Hk | by exists (Raise e)].
Qed.

Lemma readonly_get_heap : readonly get_heap.
Proof. intros w. by eexists. Qed.

Lemma readonly_list_items l : readonly (list_items l).
Proof. intros w. by eexists. Qed.

Lemma readonly_getattr v attr : readonly (getattr v attr).
Proof.
  intros w. unfold getattr.
  destruct v; try by eexists.
  destruct (String.eqb attr "name"); [by eexists|].
  destruct (String.eqb attr "symbols"); by eexists.
Qed.

Create HintDb readonly.
#[local] Hint Resolve readonly_ret readonly_raise readonly_lift readonly_get_heap
  readonly_list_items readonly_getattr : readonly.

Ltac readonly_step :=
  first [ apply readonly_bind; [|intros ?]
        | match goal with |- readonly (if ?b then _ else _) => destruct b end
        | match goal with |- readonly (match ?v with _ => _ end) => destruct v end
        | solve [auto with readonly] ].

Lemma readonly_validate_filters exchange items :
  readonly (validate_filters exchange items).
Proof.
  induction items as [|filter rest IH]; simpl; [auto with readonly|].
  repeat readonly_step.
Qed.

Lemma readonly_check_filters exchange filters :
  readonly (check_filters exchange filters).
Proof.
  unfold check_filters. destruct filters; auto with readonly.
  apply readonly_bind; [auto with readonly|]. intros items.
  destruct (0 <? length items)%nat;
    [apply readonly_validate_filters | auto with readonly].
Qed.

(** Not every computation is: an assignment to an attribute is seen in
    the store. *)
Lemma setattr_not_readonly :
  ~ readonly (setattr (VChannel 0) "name" (VStr "renamed")).
Proof.
  intros H.
  destruct (H {| heap := {| lists := fun _ => [];
                            channels := fun _ => {| name := VNone; symbols := VNone |} |};
                 clock := 0; log := [] |}) as [r Hr].
  unfold setattr in Hr. cbn in Hr.
  injection Hr as _ Hch.
  apply (f_equal (fun f => name (f 0%nat))) in Hch. discriminate Hch.
Qed.

Lemma readonly_validate_payload exchange from_date to_date filters :
  readonly (_validate_payload exchange from_date to_date filters).
Proof.
  unfold _validate_payload.
  destruct (negb _); [auto with readonly|].
  repeat (apply readonly_bind; [auto with readonly|]; intros [];
          [auto with readonly|]).
  apply readonly_check_filters.
Qed.

(** C9. Validation reads and never writes: for every exchange, pair of
    date arguments and filters, in every world, [_validate_payload] returns
    or raises, and leaves the world (the store that holds the filters list
    and every filter's name and symbols, the clock, and the record of file
    accesses and yields) exactly as it was. *)
Theorem validate_payload_pure exchange from_date to_date filters (w : world) :
  exists r, _validate_payload exchange from_date to_date filters w = Some (r, w).
Proof. apply readonly_validate_payload. Qed.

(** *** The rules on the dates *)

Lemma not_iso_date_parsed s d :
  fromisoformat s = Some d -> not_iso_date (Some s) = Ok false.
Proof.
  intros H. unfold not_iso_date, _try_parse_as_iso_date, py_fromisoformat.
  by rewrite H.
Qed.

Lemma not_iso_date_total v : exists b, not_iso_date v = Ok b.
Proof.
  destruct v as [s|]; [|by eexists].
  unfold not_iso_date, _try_parse_as_iso_date, py_fromisoformat.
  destruct (fromisoformat s); by eexists.
Qed.

(** With a known exchange and two strings that parse, validation is the
    comparison of line 108 followed by the rules on the filters. *)
Lemma validate_payload_dates exchange sf st filters d1 d2 w :
  exchange ∈ EXCHANGES ->
  fromisoformat sf = Some d1 -> fromisoformat st = Some d2 ->
  _validate_payload exchange (Some sf) (Some st) filters w =
    match dt_ge d1 d2 with
    | Ok true => Some (Raise (ValueError "Invalid 'from_date' and 'to_date' arguments combination. Please provide 'to_date' date string that is later than 'from_date'."), w)
    | Ok false => check_filters exchange filters w
    | Raise e => Some (Raise e, w)
    end.
Proof.
  intros Hex Hf Ht. unfold _validate_payload.
  rewrite (bool_decide_eq_true_2 _ Hex). cbn [negb].
  unfold bind, lift.
  rewrite (not_iso_date_parsed _ _ Hf), (not_iso_date_parsed _ _ Ht).
  unfold py_fromisoformat. rewrite Hf, Ht. cbn [res_bind].
  by destruct (dt_ge d1 d2) as [[]|].
Qed.

Lemma dt_ge_spec d1 d2 :
  aware d1 = aware d2 ->
  dt_ge d1 d2 = Ok (utc_micros d2 <=? utc_micros d1).
Proof.
  unfold aware, dt_ge, dt_compare. intros H.
  destruct (tzinfo d1), (tzinfo d2); try discriminate;
    destruct (Z.compare_spec (utc_micros d1) (utc_micros d2));
    f_equal; symmetry; first [apply Z.leb_le; lia | apply Z.leb_gt; lia].
Qed.

Lemma dt_lt_spec d1 d2 :
  aware d1 = aware d2 ->
  dt_lt d1 d2 = Ok (utc_micros d1 <? utc_micros d2).
Proof.
  unfold aware, dt_lt, dt_compare. intros H.
  destruct (tzinfo d1), (tzinfo d2); try discriminate;
    destruct (Z.compare_spec (utc_micros d1) (utc_micros d2));
    f_equal; symmetry; first [apply Z.ltb_lt; lia | apply Z.ltb_ge; lia].
Qed.

(** Python orders two naive datetimes and two aware datetimes, and has no
    order between a naive and an aware one: there the comparison of line
    108 raises [TypeError]. *)
Lemma validate_payload_mixed exchange sf st filters d1 d2 w :
  exchange ∈ EXCHANGES ->
  fromisoformat sf = Some d1 -> fromisoformat st = Some d2 ->
  aware d1 <> aware d2 ->
  _validate_payload exchange (Some sf) (Some st) filters w =
    Some (Raise (TypeError "can't compare offset-naive and offset-aware datetimes"), w).
Proof.
  intros Hex Hf Ht Hmix. rewrite (validate_payload_dates _ _ _ _ _ _ _ Hex Hf Ht).
  unfold aware in Hmix. unfold dt_ge, dt_compare.
  by destruct (tzinfo d1), (tzinfo d2).
Qed.

(** C4, as the code has it.  For a known exchange and every pair of date
    strings that parse: when the two datetimes are both naive or both
    aware, validation fails with [InvalidArgument] if [from_date] equals
    [to_date] or is later, and if it is strictly earlier, by one second or
    by any other amount, the rule on the dates passes (validation goes on
    to the rules on the filters, and succeeds when there are none); when
    one is naive and the other aware, the comparison of line 108 raises
    [TypeError]. *)
Theorem validate_payload_date_order exchange sf st filters d1 d2 w :
  exchange ∈ EXCHANGES ->
  fromisoformat sf = Some d1 -> fromisoformat st = Some d2 ->
  (aware d1 = aware d2 ->
     (utc_micros d1 = utc_micros d2 \/ utc_micros d1 > utc_micros d2 ->
        exists e, InvalidArgument e /\
          _validate_payload exchange (Some sf) (Some st) filters w = Some (Raise e, w))
     /\ (utc_micros d1 < utc_micros d2 ->
          _validate_payload exchange (Some sf) (Some st) filters w
            = check_filters exchange filters w
          /\ _validate_payload exchange (Some sf) (Some st) VNone w = Some (Ok tt, w)))
  /\ (aware d1 <> aware d2 ->
       _validate_payload exchange (Some sf) (Some st) filters w =
         Some (Raise (TypeError "can't compare offset-naive and offset-aware datetimes"),
               w)).
Proof.
  intros Hex Hf Ht. split; [|by apply validate_payload_mixed].
  intros Haw. pose proof (dt_ge_spec _ _ Haw) as Hge.
  split.
  - intros Hord. eexists. split; [by eexists|].
    rewrite (validate_payload_dates _ _ _ _ _ _ _ Hex Hf Ht), Hge.
    replace (utc_micros d2 <=? utc_micros d1) with true; [done|].
    symmetry. apply Z.leb_le. lia.
  - intros Hord.
    rewrite !(validate_payload_dates _ _ _ _ _ _ _ Hex Hf Ht), Hge.
    replace (utc_micros d2 <=? utc_micros d1) with false; [done|].
    symmetry. apply Z.leb_gt. lia.
Qed.

(** *** The exchange *)

Lemma validate_payload_unknown_exchange exchange from_date to_date filters w :
  exchange ∉ EXCHANGES ->
  _validate_payload exchange from_date to_date filters w =
    Some (Raise (NameError "name 'sEXCHANGES' is not defined"), w).
Proof.
  intros Hex. unfold _validate_payload.
  by rewrite (bool_decide_eq_false_2 _ Hex).
Qed.

(** C3. For an exchange outside [EXCHANGES], [replay] fails before any
    file is looked for and before any record is yielded (the world is
    untouched), but the exception is not the [ValueError] with the exchange
    and the valid exchanges that line 94 sets out to raise: building its
    message reads the unbound name [sEXCHANGES], and [NameError] is what
    the caller gets. *)
Theorem replay_unknown_exchange fuel self fs exchange from_date to_date filters
    decode_response w :
  exchange ∉ EXCHANGES ->
  replay fuel self fs exchange from_date to_date filters decode_response w =
    Some (Raise (NameError "name 'sEXCHANGES' is not defined"), w)
  /\ ~ InvalidArgument (NameError "name 'sEXCHANGES' is not defined").
Proof.
  intros Hex. split.
  - unfold replay, bind.
    by rewrite (validate_payload_unknown_exchange _ _ _ _ _ Hex).
  - by intros [msg ?].
Qed.

(** *** The registry lookup *)

Lemma raises_only_ret {A} P (a : A) : raises_only P (ret a).
Proof. by intros w e w'. Qed.

Lemma raises_only_raise {A} (P : exn -> Prop) e : P e -> raises_only P (@raise A e).
Proof. intros He w e' w' [= <- _]. exact He. Qed.

Lemma raises_only_lift {A} (P : exn -> Prop) (r : res A) :
  (forall e, r = Raise e -> P e) -> raises_only P (lift r).
Proof. intros Hr w e w' [= -> _]. by apply Hr. Qed.

Lemma raises_only_bind {A B} P (m : M A) (k : A -> M B) :
  raises_only P m -> (forall a, raises_only P (k a)) -> raises_only P (bind m k).
Proof.
  intros Hm Hk w e w'. unfold bind.
  destruct (m w) as [[[a|e0] w0]|] eqn:E; [apply Hk| |done].
  intros [= <- <-]. by eapply Hm.
Qed.

Lemma raises_only_get_heap P : raises_only P get_heap.
Proof. by intros w e w'. Qed.

Lemma raises_only_list_items P l : raises_only P (list_items l).
Proof. by intros w e w'. Qed.

Lemma getattr_not_KeyError v attr :
  raises_only (fun e => ~ is_KeyError e) (getattr v attr).
Proof.
  intros w e w'. unfold getattr.
  destruct v; try (intros [= <- _]; by intros [k ?]).
  destruct (String.eqb attr "name"); [done|].
  destruct (String.eqb attr "symbols"); [done|].
  intros [= <- _]; by intros [k ?].
Qed.

Lemma not_KeyError_ValueError msg : ~ is_KeyError (ValueError msg).
Proof. by intros [k ?]. Qed.

Lemma validate_filters_not_KeyError exchange items :
  is_Some (EXCHANGE_CHANNELS_INFO !! exchange) ->
  raises_only (fun e => ~ is_KeyError e) (validate_filters exchange items).
Proof.
  intros [chans Hreg].
  induction items as [|filter rest IH]; simpl; [apply raises_only_ret|].
  unfold dict_getitem. rewrite Hreg. simpl.
  apply raises_only_bind; [apply getattr_not_KeyError|]. intros filter_name.
  apply raises_only_bind; [by apply raises_only_lift|]. intros channels_info.
  destruct (negb _).
  - apply raises_only_bind; [by apply raises_only_lift|]. intros ?.
    apply raises_only_bind; [apply raises_only_get_heap|]. intros ?.
    apply raises_only_raise, not_KeyError_ValueError.
  - apply raises_only_bind; [apply getattr_not_KeyError|]. intros filter_symbols.
    destruct filter_symbols; try exact IH;
      try (apply raises_only_bind; [apply raises_only_get_heap|]; intros ?;
           apply raises_only_raise, not_KeyError_ValueError).
    apply raises_only_bind; [apply raises_only_list_items|]. intros syms.
    destruct (existsb _ syms); [|exact IH].
    apply raises_only_bind; [apply raises_only_get_heap|]. intros ?.
    apply raises_only_raise, not_KeyError_ValueError.
Qed.

Lemma py_fromisoformat_not_KeyError v e :
  py_fromisoformat v = Raise e -> ~ is_KeyError e.
Proof.
  unfold py_fromisoformat. destruct v as [s|].
  - destruct (fromisoformat s); [done|]. intros [= <-]. by intros [k ?].
  - intros [= <-]. by intros [k ?].
Qed.

(** C10. The channel lookup [EXCHANGE_CHANNELS_INFO[exchange]] of line 121
    is reached only with an exchange that passed the membership test of
    line 93.  So when every known exchange is a key of the registry,
    validation never raises [KeyError], whatever the exchange, the dates
    and the filters. *)
Theorem validate_payload_no_KeyError :
  (forall x, x ∈ EXCHANGES -> is_Some (EXCHANGE_CHANNELS_INFO !! x)) ->
  forall exchange from_date to_date filters w k w',
    _validate_payload exchange from_date to_date filters w
      <> Some (Raise (KeyError k), w').
Proof.
  intros Hreg exchange from_date to_date filters w k w' Hrun.
  enough (raises_only (fun e => ~ is_KeyError e)
            (_validate_payload exchange from_date to_date filters)) as H.
  { apply (H _ _ _ Hrun). by exists k. }
  clear Hrun. unfold _validate_payload.
  destruct (decide (exchange ∈ EXCHANGES)) as [Hex|Hex].
  2:{ rewrite (bool_decide_eq_false_2 _ Hex). simpl.
      apply raises_only_raise. by intros [? ?]. }
  rewrite (bool_decide_eq_true_2 _ Hex). cbn [negb].
  destruct (not_iso_date_total from_date) as [b1 ->].
  destruct (not_iso_date_total to_date) as [b2 ->].
  apply raises_only_bind; [by apply raises_only_lift|]. intros [].
  { apply raises_only_raise, not_KeyError_ValueError. }
  apply raises_only_bind; [by apply raises_only_lift|]. intros [].
  { apply raises_only_raise, not_KeyError_ValueError. }
  apply raises_only_bind.
  { apply raises_only_lift. intros e.
    destruct (py_fromisoformat from_date) as [a|e1] eqn:E1; simpl.
    2:{ intros [= <-]. by eapply py_fromisoformat_not_KeyError. }
    destruct (py_fromisoformat to_date) as [b|e2] eqn:E2; simpl.
    2:{ intros [= <-]. by eapply py_fromisoformat_not_KeyError. }
    unfold dt_ge, dt_compare.
    destruct (tzinfo a), (tzinfo b); try (intros [= <-]; by intros [? ?]);
      by destruct (_ ?= _). }
  intros [].
  { apply raises_only_raise, not_KeyError_ValueError. }
  unfold check_filters.
  destruct filters; try apply raises_only_ret;
    try (apply raises_only_raise, not_KeyError_ValueError).
  apply raises_only_bind; [apply raises_only_list_items|]. intros items.
  destruct (0 <? length items)%nat; [|apply raises_only_ret].
  apply validate_filters_not_KeyError. by apply Hreg.
Qed.

End Validation.

(** ** Decoding a slice *)

Section Decoding.
Context `{I : Imports}.
Import Tardis.

Lemma extend_nil w : extend w (clock w) [] = w.
Proof. destruct w. unfold extend. simpl. by rewrite app_nil_r. Qed.

Lemma extend_extend w t evs t' evs' :
  extend (extend w t evs) t' evs' = extend w t' (evs ++ evs').
Proof. unfold extend. simpl. by rewrite app_assoc. Qed.

(** Iterating over a file never gives an empty line: the test of line 66
    is false on every line a slice file has. *)
Lemma file_lines_nonempty bs : Forall (fun line => line <> []) (file_lines bs).
Proof.
  induction bs as [|b rest IH]; simpl; [constructor|].
  destruct (Byte.eqb b NEWLINE); [by constructor|].
  destruct (file_lines rest) as [|l ls]; [by repeat constructor|].
  inversion IH; subst. by constructor.
Qed.

(** The lines are the content, cut. *)
Lemma file_lines_concat bs : concat (file_lines bs) = bs.
Proof.
  induction bs as [|b rest IH]; simpl; [done|].
  destruct (Byte.eqb b NEWLINE); simpl; [by rewrite IH|].
  destruct (file_lines rest) as [|l ls]; simpl in *; by rewrite <- IH.
Qed.

Lemma length_eqb_nonempty (line : list byte) :
  line <> [] -> (length line =? 0)%nat = false.
Proof. destruct line; [done|]. by intros _. Qed.

(** A slice whose lines all decode: every record is yielded, in order. *)
Lemma for_line_in_file_decodes decode_response lines rs n w :
  Forall (fun line => line <> []) lines ->
  decodes decode_response lines rs ->
  for_line_in_file decode_response lines n w =
    Some (Ok (n + length lines)%nat, extend w (clock w) (map EYield rs)).
Proof.
  intros Hne Hdec. revert n w Hne.
  induction Hdec as [|line r lines rs Hline Hrest IH]; intros n w Hne.
  - simpl. by rewrite Nat.add_0_r, extend_nil.
  - inversion Hne as [|? ? Hl Hls]; subst. simpl.
    rewrite (length_eqb_nonempty _ Hl). unfold bind, lift, emit. rewrite Hline.
    rewrite (IH _ _ Hls). f_equal. f_equal; [f_equal; lia|].
    unfold extend. simpl. by rewrite <- app_assoc.
Qed.

(** A slice with a line that does not decode: the records before it are
    yielded, then the exception leaves the loop. *)
Lemma for_line_in_file_raises decode_response pre bad post rs e n w :
  Forall (fun line => line <> []) pre -> bad <> [] ->
  decodes decode_response pre rs ->
  decode_line decode_response bad = Raise e ->
  for_line_in_file decode_response (pre ++ bad :: post) n w =
    Some (Raise e, extend w (clock w) (map EYield rs)).
Proof.
  intros Hne Hbad Hdec Hraise. revert n w Hne.
  induction Hdec as [|line r lines rs Hline Hrest IH]; intros n w Hne.
  - simpl. rewrite (length_eqb_nonempty _ Hbad). unfold bind, lift.
    rewrite Hraise. by rewrite extend_nil.
  - inversion Hne as [|? ? Hl Hls]; subst. simpl.
    rewrite (length_eqb_nonempty _ Hl). unfold bind, lift, emit. rewrite Hline.
    rewrite (IH _ _ Hls). f_equal. f_equal.
    unfold extend. simpl. by rewrite <- app_assoc.
Qed.

Lemma for_line_in_file_raw lines n w :
  exists n',
    for_line_in_file false lines n w =
      Some (Ok n', extend w (clock w)
                     (map (fun line => EYield (raw_response line))
                          (List.filter nonempty lines))).
Proof.
  revert n w. induction lines as [|line rest IH]; intros n w.
  - exists n. simpl. by rewrite extend_nil.
  - cbn [for_line_in_file List.filter]. unfold nonempty at 1.
    destruct (length line =? 0)%nat; cbn [negb map]; [apply IH|].
    unfold bind, lift, emit.
    change (decode_line false line) with (Ok (raw_response line)). cbv beta iota.
    destruct (IH (n + 1)%nat
                {| heap := heap w; clock := clock w;
                   log := log w ++ [EYield (raw_response line)] |}) as [n' ->].
    exists n'. f_equal. f_equal. unfold extend. simpl. by rewrite <- app_assoc.
Qed.

(** C7. With [decode_response] false nothing is parsed, so nothing can be
    malformed: every line whatsoever, of any bytes and any length, is
    answered by a Response of two byte strings, and the loop over the lines
    of a slice, whatever they are, runs to its end without raising. *)
Theorem raw_mode_never_raises :
  (forall line, decode_line false line = Ok (raw_response line))
  /\ (forall lines n w, exists n' rs,
        for_line_in_file false lines n w =
          Some (Ok n', extend w (clock w) (map EYield rs))).
Proof.
  split; [done|]. intros lines n w.
  destruct (for_line_in_file_raw lines n w) as [n' H].
  exists n', (map raw_response (List.filter nonempty lines)).
  by rewrite H, map_map.
Qed.

(** C6, as the code has it.  For every line of at least 29 bytes, raw mode
    yields the first 28 bytes and the bytes from offset 29 on, and these
    two with the byte at offset 28 between them are the line. *)
Theorem raw_response_reconstructs (line : list byte) :
  (29 <= length line)%nat ->
  exists delimiter,
    line !! 28%nat = Some delimiter
    /\ decode_line false line
         = Ok {| local_timestamp := FBytes (take 28 line);
                 message := FBytes (drop 29 line) |}
    /\ (take 28 line ++ [delimiter] ++ drop 29 line)%list = line.
Proof.
  intros Hlen.
  destruct (lookup_lt_is_Some_2 line 28) as [d Hd]; [lia|].
  exists d. split; [done|]. split; [done|].
  by apply take_drop_middle.
Qed.

(** In decoding mode a line fails exactly when it is malformed, with the
    exception of the parse that failed first. *)
Lemma decode_line_malformed line e :
  decode_line true line = Raise e <-> malformed line e.
Proof.
  unfold malformed, parse_timestamp, parse_payload, decode_line.
  destruct (decode_utf8 _) as [text|e1]; simpl.
  - destruct (strptime text _) as [d|e2]; simpl.
    + destruct (json_loads _) as [j|e3]; simpl.
      * split; [done|]. intros [H|[_ H]]; discriminate.
      * split; [intros [= ->]; right; split; [by eexists|done]|].
        intros [H|[_ H]]; [discriminate|]. by injection H as ->.
    + split; [intros [= ->]; by left|].
      intros [H|[[d' H] _]]; [by injection H as ->|discriminate].
  - split; [intros [= ->]; by left|].
    intros [H|[[d' H] _]]; [by injection H as ->|discriminate].
Qed.

End Decoding.

(** ** The replay loop *)

Section Replay.
Context `{I : Imports}.
Import Tardis.
Variables (self : TardisClient) (fs : cache) (exchange : string) (filters : value).
Variable decode_response : bool.

(** Waiting for a slice that appears at poll [a]: the polls until then find
    nothing, the next one finds the file. *)
Lemma wait_for_slice_found polls c a : forall w,
  created fs (slice_path self exchange filters (heap w) c) = Some a ->
  (a - clock w < polls)%nat ->
  wait_for_slice polls self fs exchange c filters w =
    Some (Ok (slice_path self exchange filters (heap w) c),
          extend w (Nat.max (clock w) a)
            (repeat (EWait (slice_path self exchange filters (heap w) c))
                    (a - clock w))).
Proof.
  unfold slice_path.
  induction polls as [|polls IH]; intros w Hc Hlt; [lia|].
  cbn [wait_for_slice]. unfold bind, get_heap, get_clock, isfile.
  rewrite Hc. destruct (a <=? clock w)%nat eqn:E.
  - apply Nat.leb_le in E. unfold ret.
    replace (a - clock w)%nat with 0%nat by lia.
    replace (Nat.max (clock w) a) with (clock w) by lia.
    by rewrite extend_nil.
  - apply Nat.leb_gt in E. unfold emit, sleep. cbn [heap clock log].
    rewrite IH; cbn [heap clock log]; [|done|lia].
    f_equal. f_equal. unfold extend. cbn [heap clock log].
    replace (a - clock w)%nat with (S (a - S (clock w))) by lia.
    replace (Nat.max (S (clock w)) a) with (Nat.max (clock w) a) by lia.
    cbn [repeat]. by rewrite <- app_assoc.
Qed.

(** A slice that is never written is waited for as long as the budget
    lasts: the loop of lines 52-62 has no other way out. *)
Lemma wait_for_slice_missing polls c : forall w,
  created fs (slice_path self exchange filters (heap w) c) = None ->
  wait_for_slice polls self fs exchange c filters w = None.
Proof.
  unfold slice_path.
  induction polls as [|polls IH]; intros w Hc; [done|].
  cbn [wait_for_slice]. unfold bind, get_heap, get_clock, isfile.
  rewrite Hc. unfold emit, sleep. cbn [heap clock log]. by rewrite IH.
Qed.

(** One turn of the outer loop on a slice that is there and decodes. *)
Lemma slice_loop_step fuel polls to_date c c' a rs w :
  dt_lt c to_date = Ok true ->
  created fs (slice_path self exchange filters (heap w) c) = Some a ->
  (a < polls)%nat ->
  decodes decode_response
    (file_lines (content fs (slice_path self exchange filters (heap w) c))) rs ->
  dt_add_seconds c 60 = Ok c' ->
  slice_loop (S fuel) polls self fs exchange to_date filters decode_response c w =
    slice_loop fuel polls self fs exchange to_date filters decode_response c'
      (extend w (Nat.max (clock w) a)
         (slice_events (slice_path self exchange filters (heap w) c)
            (a - clock w) rs)).
Proof.
  intros Hlt Hc Ha Hdec Hadd. cbn [slice_loop]. unfold bind at 1, lift at 1.
  rewrite Hlt. unfold bind at 1.
  rewrite (wait_for_slice_found polls c a w Hc) by lia.
  unfold bind at 1, emit at 1. unfold bind at 1.
  rewrite (for_line_in_file_decodes _ _ rs); [|apply file_lines_nonempty|exact Hdec].
  unfold bind at 1, lift at 1. rewrite Hadd.
  f_equal. unfold extend, slice_events. cbn [heap clock log].
  f_equal. by rewrite <- !app_assoc.
Qed.

(** One turn of the outer loop on a slice that is there and has a line
    that does not decode. *)
Lemma slice_loop_raises fuel polls to_date c a pre bad post rs e w :
  dt_lt c to_date = Ok true ->
  created fs (slice_path self exchange filters (heap w) c) = Some a ->
  (a < polls)%nat ->
  file_lines (content fs (slice_path self exchange filters (heap w) c))
    = (pre ++ bad :: post)%list ->
  decodes decode_response pre rs ->
  decode_line decode_response bad = Raise e ->
  slice_loop (S fuel) polls self fs exchange to_date filters decode_response c w =
    Some (Raise e,
          extend w (Nat.max (clock w) a)
            (slice_events (slice_path self exchange filters (heap w) c)
               (a - clock w) rs)).
Proof.
  intros Hlt Hc Ha Hlines Hdec Hbad. cbn [slice_loop]. unfold bind at 1, lift at 1.
  rewrite Hlt. unfold bind at 1.
  rewrite (wait_for_slice_found polls c a w Hc) by lia.
  unfold bind at 1, emit at 1. unfold bind at 1.
  pose proof (file_lines_nonempty
                (content fs (slice_path self exchange filters (heap w) c))) as Hne.
  rewrite Hlines in Hne |- *.
  apply Forall_app in Hne as [Hpre Hrest]. inversion Hrest; subst.
  rewrite (for_line_in_file_raises _ pre bad post rs e); [|done..].
  f_equal. unfold extend, slice_events. cbn [heap clock log].
  f_equal. f_equal. by rewrite <- !app_assoc.
Qed.

(** The loop ends when the cursor is not before [to_date]. *)
Lemma slice_loop_done fuel polls to_date c w :
  dt_lt c to_date = Ok false ->
  slice_loop (S fuel) polls self fs exchange to_date filters decode_response c w =
    Some (Ok tt, w).
Proof. intros Hlt. cbn [slice_loop]. unfold bind, lift. by rewrite Hlt. Qed.

(** *** The cursor *)

Lemma utc_micros_cursor d k :
  utc_micros (cursor d k) = utc_micros d + Z.of_nat k * (60 * MICROS_PER_SECOND).
Proof. unfold utc_micros, cursor. cbn [micros tzinfo]. lia. Qed.

Lemma cursor_0 d : cursor d 0 = d.
Proof. destruct d. unfold cursor. cbn [micros tzinfo]. f_equal. lia. Qed.

Lemma cursor_next d k :
  0 <= micros d ->
  micros d + Z.of_nat (S k) * (60 * MICROS_PER_SECOND) <= MAX_MICROS ->
  dt_add_seconds (cursor d k) 60 = Ok (cursor d (S k)).
Proof.
  intros H0 Hmax. unfold dt_add_seconds, cursor, between. cbn [micros tzinfo].
  unfold MICROS_PER_SECOND in *.
  rewrite (proj2 (Z.leb_le _ _)) by lia. rewrite (proj2 (Z.leb_le _ _)) by lia.
  cbn [andb]. f_equal. f_equal. lia.
Qed.

(** The slices of a range are those whose start is before [to_date]. *)
Lemma slice_count_spec d1 d2 k :
  (k < slice_count d1 d2)%nat <-> utc_micros (cursor d1 k) < utc_micros d2.
Proof.
  rewrite utc_micros_cursor. unfold slice_count, MICROS_PER_SECOND.
  set (D := utc_micros d2 - utc_micros d1).
  replace (60 * 1000000 - 1) with 59999999 by lia.
  replace (60 * 1000000) with 60000000 by lia.
  pose proof (Z.div_mod (D + 59999999) 60000000 ltac:(lia)) as Hdm.
  pose proof (Z.mod_pos_bound (D + 59999999) 60000000 ltac:(lia)) as Hb.
  set (q := (D + 59999999) / 60000000) in *.
  set (r := (D + 59999999) mod 60000000) in *.
  split; intros H.
  - assert (Z.of_nat k < q) by lia. lia.
  - assert (Z.of_nat k < q) by lia. lia.
Qed.

Lemma dt_ge_false_inv d1 d2 :
  dt_ge d1 d2 = Ok false -> aware d1 = aware d2 /\ utc_micros d1 < utc_micros d2.
Proof.
  unfold dt_ge, dt_compare, aware.
  destruct (tzinfo d1), (tzinfo d2); try discriminate;
    destruct (Z.compare_spec (utc_micros d1) (utc_micros d2)); try discriminate;
    by intros _.
Qed.

(** A request that passes validation. *)
Lemma validate_payload_ok_inv sf st d1 d2 w :
  fromisoformat sf = Some d1 -> fromisoformat st = Some d2 ->
  _validate_payload exchange (Some sf) (Some st) filters w = Some (Ok tt, w) ->
  aware d1 = aware d2 /\ utc_micros d1 < utc_micros d2.
Proof.
  intros Hf Ht Hok.
  destruct (decide (exchange ∈ EXCHANGES)) as [Hex|Hex].
  2:{ by rewrite (validate_payload_unknown_exchange _ _ _ _ _ Hex) in Hok. }
  rewrite (validate_payload_dates _ _ _ _ _ _ _ Hex Hf Ht) in Hok.
  destruct (dt_ge d1 d2) as [[]|] eqn:E; try discriminate.
  by apply dt_ge_false_inv.
Qed.

Lemma flat_map_seq_ext {A} (f g : nat -> list A) len : forall start,
  (forall k, (start <= k < start + len)%nat -> f k = g k) ->
  flat_map f (seq start len) = flat_map g (seq start len).
Proof.
  induction len as [|len IH]; intros start H; [done|].
  cbn [seq flat_map]. rewrite (H start) by lia. f_equal.
  apply IH. intros k Hk. apply H. lia.
Qed.

(** *** Slice after slice *)

(** [m] slices from slice [j] on, each of them written at some poll and
    made of lines that decode: the loop goes through them in order and is
    then at slice [j + m]. *)
Lemma slice_loop_prefix polls d1 d2 (records : nat -> list Response) m :
  forall j w fuel,
    0 <= micros d1 ->
    micros d1 + Z.of_nat (j + m) * (60 * MICROS_PER_SECOND) <= MAX_MICROS ->
    (forall k, (j <= k < j + m)%nat -> dt_lt (cursor d1 k) d2 = Ok true) ->
    (forall k, (j <= k < j + m)%nat -> exists a,
        created fs (slice_path self exchange filters (heap w) (cursor d1 k)) = Some a
        /\ (a < polls)%nat) ->
    (forall k, (j <= k < j + m)%nat ->
        decodes decode_response
          (file_lines (content fs (slice_path self exchange filters (heap w)
                                     (cursor d1 k))))
          (records k)) ->
    exists waits t,
      slice_loop (m + fuel) polls self fs exchange d2 filters decode_response
          (cursor d1 j) w =
        slice_loop fuel polls self fs exchange d2 filters decode_response
          (cursor d1 (j + m))
          (extend w t
             (flat_map (fun k => slice_events
                                   (slice_path self exchange filters (heap w)
                                      (cursor d1 k))
                                   (waits k) (records k))
                       (seq j m))).
Proof.
  induction m as [|m IH]; intros j w fuel H0 Hmax Hlt Hfs Hdec.
  - exists (fun _ => 0%nat), (clock w). cbn [seq flat_map Nat.add].
    by rewrite Nat.add_0_r, extend_nil.
  - destruct (Hfs j) as (a & Ha & Hap); [lia|].
    cbn [Nat.add].
    rewrite (slice_loop_step (m + fuel) polls d2 (cursor d1 j) (cursor d1 (S j))
               a (records j) w); [|apply Hlt; lia|done|done|apply Hdec; lia|].
    2:{ apply cursor_next; [done|]. unfold MICROS_PER_SECOND in *. lia. }
    set (w1 := extend w _ _).
    destruct (IH (S j) w1 fuel) as (waits & t & IHeq); [done|..].
    { replace (S j + m)%nat with (j + S m)%nat by lia. done. }
    { intros k Hk. apply Hlt. lia. }
    { intros k Hk. apply Hfs. lia. }
    { intros k Hk. apply Hdec. lia. }
    rewrite IHeq.
    exists (fun k => if (k =? j)%nat then (a - clock w)%nat else waits k), t.
    replace (S j + m)%nat with (j + S m)%nat by lia. f_equal.
    unfold w1. rewrite extend_extend. f_equal.
    cbn [seq flat_map]. rewrite Nat.eqb_refl. f_equal.
    apply flat_map_seq_ext. intros k Hk.
    destruct (Nat.eqb_spec k j); [lia|done].
Qed.

(** *** The step budget is immaterial

    A run that ends within a budget ends the same way within any larger
    one. *)
Lemma wait_for_slice_mono polls c r : forall polls' w,
  wait_for_slice polls self fs exchange c filters w = Some r ->
  (polls <= polls')%nat ->
  wait_for_slice polls' self fs exchange c filters w = Some r.
Proof.
  induction polls as [|polls IH]; intros polls' w H Hle; [done|].
  destruct polls' as [|polls']; [lia|].
  cbn [wait_for_slice] in *. unfold bind, get_heap, get_clock in *.
  destruct (isfile fs (clock w) _); [done|].
  unfold emit, sleep in *. apply IH; [exact H|lia].
Qed.

Lemma slice_loop_mono polls polls' to_date r fuel : forall fuel' c w,
  slice_loop fuel polls self fs exchange to_date filters decode_response c w = Some r ->
  (fuel <= fuel')%nat -> (polls <= polls')%nat ->
  slice_loop fuel' polls' self fs exchange to_date filters decode_response c w = Some r.
Proof.
  induction fuel as [|fuel IH]; intros fuel' c w H Hle Hp; [done|].
  destruct fuel' as [|fuel']; [lia|].
  cbn [slice_loop] in *. unfold bind, lift in *.
  destruct (dt_lt c to_date) as [[|]|e]; [|done..].
  destruct (wait_for_slice polls self fs exchange c filters w)
    as [[[p|e] w1]|] eqn:Ew; [| |done].
  - rewrite (wait_for_slice_mono _ _ _ _ _ Ew Hp).
    unfold emit in *.
    destruct (for_line_in_file _ _ _ _) as [[[n|e] w2]|]; [|done..].
    destruct (dt_add_seconds c 60) as [c'|e]; [|done].
    apply IH; [exact H|lia|done].
  - by rewrite (wait_for_slice_mono _ _ _ _ _ Ew Hp).
Qed.

Lemma replay_fuel_mono fuel fuel' from_date to_date w r :
  replay fuel self fs exchange from_date to_date filters decode_response w = Some r ->
  (fuel <= fuel')%nat ->
  replay fuel' self fs exchange from_date to_date filters decode_response w = Some r.
Proof.
  unfold replay, bind, lift. intros H Hle.
  destruct (_validate_payload _ _ _ _ w) as [[[[]|e] w1]|]; [|done..].
  destruct (py_fromisoformat from_date) as [d1|e]; [|done].
  destruct (py_fromisoformat to_date) as [d2|e]; [|done].
  by apply (slice_loop_mono fuel fuel' d2 r fuel).
Qed.

Lemma created_bound (P : nat -> option nat) n :
  (forall k, (k < n)%nat -> is_Some (P k)) ->
  exists bound, forall k, (k < n)%nat -> exists a, P k = Some a /\ (a < bound)%nat.
Proof.
  induction n as [|n IH]; intros H.
  - exists 0%nat. intros k Hk. lia.
  - destruct IH as [b Hb]; [intros k Hk; apply H; lia|].
    destruct (H n) as [a Ha]; [lia|].
    exists (Nat.max b (S a)). intros k Hk.
    destruct (decide (k = n)) as [->|Hne].
    + exists a. split; [done|lia].
    + destruct (Hb k) as (a' & Ha' & Hlt); [lia|]. exists a'. split; [done|lia].
Qed.

Lemma dt_lt_cursor d1 d2 k :
  aware d1 = aware d2 ->
  dt_lt (cursor d1 k) d2 = Ok (bool_decide (k < slice_count d1 d2)%nat).
Proof.
  intros Haw. rewrite dt_lt_spec by done. f_equal.
  case_bool_decide as Hk.
  - apply Z.ltb_lt. by apply slice_count_spec.
  - apply Z.ltb_ge. rewrite slice_count_spec in Hk. lia.
Qed.

(** C1, as the code has it.  For a request that passes validation and
    whose cursor stays a datetime up to the end of the range (60 seconds
    past the start of the last slice is not beyond [datetime.max]), with
    every slice of the range written to the cache at some time and made of
    lines that decode: the slices are those that start at [from_date] plus
    a multiple of 60 seconds and before [to_date]; [replay] waits for each
    in turn, opens it, yields its records in file order and then moves 60
    seconds on; and it returns after the last of them without looking for
    any other file. *)
Theorem replay_fetches_each_slice sf st d1 d2 (records : nat -> list Response) w :
  _validate_payload exchange (Some sf) (Some st) filters w = Some (Ok tt, w) ->
  fromisoformat sf = Some d1 -> fromisoformat st = Some d2 ->
  valid_datetime d1 ->
  valid_datetime (cursor d1 (slice_count d1 d2)) ->
  (forall k, (k < slice_count d1 d2)%nat ->
     is_Some (created fs (slice_path self exchange filters (heap w) (cursor d1 k)))) ->
  (forall k, (k < slice_count d1 d2)%nat ->
     decodes decode_response
       (file_lines (content fs (slice_path self exchange filters (heap w)
                                  (cursor d1 k))))
       (records k)) ->
  (forall k, (k < slice_count d1 d2)%nat
             <-> utc_micros (cursor d1 k) < utc_micros d2)
  /\ exists fuel0 waits t, forall fuel, (fuel0 <= fuel)%nat ->
       replay fuel self fs exchange (Some sf) (Some st) filters decode_response w =
         Some (Ok tt,
               extend w t
                 (flat_map (fun k => slice_events
                                       (slice_path self exchange filters (heap w)
                                          (cursor d1 k))
                                       (waits k) (records k))
                           (seq 0 (slice_count d1 d2)))).
Proof.
  intros Hval Hf Ht Hv1 Hvn Hfs Hdec.
  split; [intros k; apply slice_count_spec|].
  destruct (validate_payload_ok_inv _ _ _ _ _ Hf Ht Hval) as [Haw Hlt].
  set (n := slice_count d1 d2) in *.
  destruct (created_bound _ n Hfs) as [bound Hb].
  destruct (slice_loop_prefix (n + S bound) d1 d2 records n 0 w (S bound))
    as (waits & t & Hrun).
  { apply Hv1. }
  { apply Hvn. }
  { intros k Hk. rewrite dt_lt_cursor by done. by rewrite bool_decide_eq_true_2 by lia. }
  { intros k Hk. destruct (Hb k) as (a & Ha & Hlt'); [lia|]. exists a. split; [done|lia]. }
  { intros k Hk. apply Hdec. lia. }
  exists (n + S bound)%nat, waits, t. intros fuel Hfuel.
  apply (replay_fuel_mono (n + S bound)); [|done].
  unfold replay, bind. rewrite Hval. unfold lift, py_fromisoformat. rewrite Hf, Ht.
  replace (slice_loop (n + S bound) (n + S bound) self fs exchange d2 filters
             decode_response d1 w)
    with (slice_loop (n + S bound) (n + S bound) self fs exchange d2 filters
            decode_response (cursor d1 0) w) by (by rewrite cursor_0).
  rewrite Hrun. apply slice_loop_done.
  rewrite dt_lt_cursor by done. by rewrite bool_decide_eq_false_2 by (cbn; lia).
Qed.

(** The wait has no bound (the gap the specification records for the
    slice waiter): when the first slice of a valid request is never
    written, no budget is enough for [replay] to return or raise. *)
Lemma replay_waits_forever sf st d1 d2 w :
  _validate_payload exchange (Some sf) (Some st) filters w = Some (Ok tt, w) ->
  fromisoformat sf = Some d1 -> fromisoformat st = Some d2 ->
  created fs (slice_path self exchange filters (heap w) d1) = None ->
  forall fuel,
    replay fuel self fs exchange (Some sf) (Some st) filters decode_response w = None.
Proof.
  intros Hval Hf Ht Hnone fuel.
  destruct (validate_payload_ok_inv _ _ _ _ _ Hf Ht Hval) as [Haw Hlt].
  unfold replay, bind. rewrite Hval. unfold lift, py_fromisoformat. rewrite Hf, Ht.
  destruct fuel as [|fuel]; [done|].
  cbn [slice_loop]. unfold bind, lift. rewrite dt_lt_spec by done.
  rewrite (proj2 (Z.ltb_lt _ _) Hlt).
  by rewrite wait_for_slice_missing.
Qed.

End Replay.

Section Malformed.
Context `{I : Imports}.
Import Tardis.
Variables (self : TardisClient) (fs : cache) (exchange : string) (filters : value).

(** C8.  In decoding mode, the first line whose timestamp does not parse or
    whose payload is not JSON ends the replay: with the slices before slice
    [j] read in full and the lines [pre] before line [bad] of slice [j]
    decoded, [replay] raises what the parse of [bad] raised, as it is (no
    handler is in the way), and the records it has yielded by then are
    those of the earlier slices and of [pre]: nothing of [bad], of the lines
    [post] after it, or of a later slice. *)
Theorem replay_aborts_on_malformed_record sf st d1 d2
    (records : nat -> list Response) j pre bad post rs e w :
  _validate_payload exchange (Some sf) (Some st) filters w = Some (Ok tt, w) ->
  fromisoformat sf = Some d1 -> fromisoformat st = Some d2 ->
  valid_datetime d1 ->
  valid_datetime (cursor d1 j) ->
  (j < slice_count d1 d2)%nat ->
  (forall k, (k <= j)%nat ->
     is_Some (created fs (slice_path self exchange filters (heap w) (cursor d1 k)))) ->
  (forall k, (k < j)%nat ->
     decodes true
       (file_lines (content fs (slice_path self exchange filters (heap w)
                                  (cursor d1 k))))
       (records k)) ->
  file_lines (content fs (slice_path self exchange filters (heap w) (cursor d1 j)))
    = (pre ++ bad :: post)%list ->
  decodes true pre rs ->
  malformed bad e ->
  exists fuel0 waits t, forall fuel, (fuel0 <= fuel)%nat ->
    replay fuel self fs exchange (Some sf) (Some st) filters true w =
      Some (Raise e,
            extend w t
              (flat_map (fun k => slice_events
                                    (slice_path self exchange filters (heap w)
                                       (cursor d1 k))
                                    (waits k) (records k))
                        (seq 0 j)
               ++ slice_events
                    (slice_path self exchange filters (heap w) (cursor d1 j))
                    (waits j) rs)).
Proof.
  intros Hval Hf Ht Hv1 Hvj Hj Hfs Hdec Hlines Hpre Hbad.
  apply decode_line_malformed in Hbad.
  destruct (validate_payload_ok_inv _ _ _ _ _ _ _ Hf Ht Hval) as [Haw Hlt].
  destruct (created_bound _ (S j) (fun k Hk => Hfs k (proj1 (Nat.lt_succ_r _ _) Hk)))
    as [bound Hb].
  destruct (slice_loop_prefix self fs exchange filters true (j + S bound) d1 d2
              records j 0 w (S bound))
    as (waits & t & Hrun).
  { apply Hv1. }
  { apply Hvj. }
  { intros k Hk. rewrite dt_lt_cursor by done. by rewrite bool_decide_eq_true_2 by lia. }
  { intros k Hk. destruct (Hb k) as (a & Ha & Hlt'); [lia|]. exists a. split; [done|lia]. }
  { intros k Hk. apply Hdec. lia. }
  destruct (Hb j) as (a & Ha & Hlta); [lia|].
  exists (j + S bound)%nat.
  exists (fun k => if (k =? j)%nat then (a - t)%nat else waits k).
  exists (Nat.max t a). intros fuel Hfuel.
  apply (replay_fuel_mono _ _ _ _ _ (j + S bound)); [|done].
  unfold replay, bind. rewrite Hval. unfold lift, py_fromisoformat. rewrite Hf, Ht.
  replace (slice_loop (j + S bound) (j + S bound) self fs exchange d2 filters
             true d1 w)
    with (slice_loop (j + S bound) (j + S bound) self fs exchange d2 filters
            true (cursor d1 0) w) by (by rewrite cursor_0).
  rewrite Hrun. cbn [Nat.add].
  rewrite (slice_loop_raises self fs exchange filters true bound (j + S bound) d2
             (cursor d1 j) a pre bad post rs e); [| |done|lia|done..].
  2:{ rewrite dt_lt_cursor by done. by rewrite bool_decide_eq_true_2. }
  rewrite extend_extend. cbn [clock extend]. rewrite Nat.eqb_refl.
  f_equal. f_equal. f_equal. f_equal.
  apply flat_map_seq_ext. intros k Hk.
  destruct (Nat.eqb_spec k j); [lia|done].
Qed.

End Malformed.

(** ** The statements on concrete requests *)

Section Scenarios.
Import Tardis.

Ltac compute_lines :=
  match goal with
  | |- decodes _ ?l _ => let l' := eval vm_compute in l in change l with l'
  end.

Lemma known_bitmex : "bitmex" ∈ @EXCHANGES Demo.imports.
Proof. apply (bool_decide_unpack _). by vm_compute. Qed.

(** The end-to-end scenario of C1, evaluated: from 2021-01-01T00:00:00 to
    2021-01-01T00:02:00, with the slices of three records and of none in
    the cache, exactly the three records are yielded, in file order, and
    the slice of minute 2, though it is there, is not opened. *)
Example replay_two_slices :
  replay (I := Demo.imports) 3 Demo.client Demo.two_slices "bitmex"
    (Some "2021-01-01T00:00:00") (Some "2021-01-01T00:02:00") VNone true Demo.w0
  = Some (Ok tt,
          extend Demo.w0 0
            ([EOpen (Demo.minute_path 0)] ++ map EYield Demo.three_records
             ++ [EOpen (Demo.minute_path 1)])).
Proof. by vm_compute. Qed.

(** A slice that is written while [replay] waits for it: two polls find
    nothing, the third finds the file, and its record is yielded. *)
Example replay_waits_for_slice :
  replay (I := Demo.imports) 3 Demo.client
    (Demo.cache_of [(Demo.minute_path 0, (2%nat, Demo.line28))]) "bitmex"
    (Some "2021-01-01T00:00:00") (Some "2021-01-01T00:01:00") VNone true Demo.w0
  = Some (Ok tt,
          extend Demo.w0 2
            [EWait (Demo.minute_path 0); EWait (Demo.minute_path 0);
             EOpen (Demo.minute_path 0); EYield Demo.record28]).
Proof. by vm_compute. Qed.

(** C1, as stated, fails at the end of the calendar.  The request from
    9999-12-31T23:59:00 to 9999-12-31T23:59:30 passes validation and its
    one slice is in the cache; [replay] opens it, and then line 79 adds 60
    seconds to a cursor that cannot take them: the caller gets
    [OverflowError] where the claim has the cursor advanced and the replay
    terminated. *)
Lemma replay_overflows_at_datetime_max :
  _validate_payload (I := Demo.imports) "bitmex"
    (Some "9999-12-31T23:59:00") (Some "9999-12-31T23:59:30") VNone Demo.w0
    = Some (Ok tt, Demo.w0)
  /\ isfile Demo.last_minute 0 Demo.last_minute_path = true
  /\ replay (I := Demo.imports) 2 Demo.client Demo.last_minute "bitmex"
       (Some "9999-12-31T23:59:00") (Some "9999-12-31T23:59:30") VNone true Demo.w0
     = Some (Raise (OverflowError "date value out of range"),
             extend Demo.w0 0 [EOpen Demo.last_minute_path]).
Proof. by vm_compute. Qed.

(** The end-to-end scenario is an instance: every hypothesis of the
    theorem holds of it, and the two slices inside the range are what the
    run is made of. *)
Lemma replay_fetches_each_slice_witness :
  exists fuel0 waits t, forall fuel, (fuel0 <= fuel)%nat ->
    replay (I := Demo.imports) fuel Demo.client Demo.two_slices "bitmex"
      (Some "2021-01-01T00:00:00") (Some "2021-01-01T00:02:00") VNone true Demo.w0
    = Some (Ok tt,
            extend Demo.w0 t
              (flat_map (fun k => slice_events
                                    (slice_path (I := Demo.imports) Demo.client
                                       "bitmex" VNone (heap Demo.w0)
                                       (cursor {| micros := 63745056000000000;
                                                  tzinfo := None |} k))
                                    (waits k) (Demo.records_of_two_slices k))
                        (seq 0 2))).
Proof.
  refine (proj2 (replay_fetches_each_slice (I := Demo.imports)
            Demo.client Demo.two_slices "bitmex" VNone true
            "2021-01-01T00:00:00" "2021-01-01T00:02:00"
            {| micros := 63745056000000000; tzinfo := None |}
            {| micros := 63745056120000000; tzinfo := None |}
            Demo.records_of_two_slices Demo.w0 _ _ _ _ _ _ _)).
  - by vm_compute.
  - by vm_compute.
  - by vm_compute.
  - split; by vm_compute.
  - split; by vm_compute.
  - intros k Hk. change (k < 2)%nat in Hk.
    destruct k as [|[|k]]; [by vm_compute; eexists..|lia].
  - intros k Hk. change (k < 2)%nat in Hk.
    destruct k as [|[|k]]; [| |lia]; compute_lines.
    + repeat (constructor; [by vm_compute|]). constructor.
    + constructor.
Defined.

(** C2, as stated, fails.  The line of the claim has a timestamp of 26
    bytes, so the payload that line 74 cuts at offset 29 starts two bytes
    into the JSON text: the timestamp parses, [json.loads] does not, and
    the replay raises with no Response yielded. *)
Lemma replay_line26_raises :
  parse_timestamp (I := Demo.imports) Demo.line26
    = Ok {| micros := 63745056000123456; tzinfo := None |}
  /\ slice_from 29 Demo.line26
      = ("a"%byte :: x22 :: Demo.bytes ":1}" ++ [NEWLINE])%list
  /\ replay (I := Demo.imports) 2 Demo.client (Demo.one_slice Demo.line26) "bitmex"
       (Some "2021-01-01T00:00:00") (Some "2021-01-01T00:01:00") VNone true Demo.w0
     = Some (Raise (JSONDecodeError "Expecting value"),
             extend Demo.w0 0 [EOpen (Demo.minute_path 0)]).
Proof. by vm_compute. Qed.

(** C2, as the code has it.  For a slice file whose content is the single
    line of a 28-byte timestamp, a space and the payload,
    [2021-01-01T00:00:00.1234567Z {"a":1}] and a newline, [replay] with
    [decode_response] true yields exactly one Response: its
    [local_timestamp] is the datetime 2021-01-01T00:00:00.123456, parsed
    from the 26 bytes before offset 28 - 2, and its [message] is the JSON
    object with the one item a: 1, parsed from the bytes after offset
    28. *)
Theorem replay_line28_decodes :
  mk_datetime 2021 1 1 0 0 0 123456 None
    = Some {| micros := 63745056000123456; tzinfo := None |}
  /\ slice 0 (DATE_MESSAGE_SPLIT_INDEX - 2) Demo.line28
      = Demo.bytes "2021-01-01T00:00:00.123456"
  /\ slice_from (DATE_MESSAGE_SPLIT_INDEX + 1) Demo.line28
      = (Demo.bytes Demo.a1 ++ [NEWLINE])%list
  /\ replay (I := Demo.imports) 2 Demo.client (Demo.one_slice Demo.line28) "bitmex"
       (Some "2021-01-01T00:00:00") (Some "2021-01-01T00:01:00") VNone true Demo.w0
     = Some (Ok tt,
             extend Demo.w0 0
               [EOpen (Demo.minute_path 0);
                EYield {| local_timestamp :=
                            FDatetime {| micros := 63745056000123456; tzinfo := None |};
                          message := FJson (JObj [("a", JInt 1)]) |}]).
Proof. by vm_compute. Qed.

(** An exchange that is one letter short of a known one. *)
Lemma replay_unknown_exchange_witness :
  ("bitme" ∉ @EXCHANGES Demo.imports)
  /\ replay (I := Demo.imports) 3 Demo.client Demo.two_slices "bitme"
       (Some "2021-01-01T00:00:00") (Some "2021-01-01T00:02:00") VNone true Demo.w0
     = Some (Raise (NameError "name 'sEXCHANGES' is not defined"), Demo.w0)
  /\ ~ InvalidArgument (NameError "name 'sEXCHANGES' is not defined").
Proof.
  assert ("bitme" ∉ @EXCHANGES Demo.imports) as H.
  { apply (bool_decide_eq_false_1 _). by vm_compute. }
  split; [exact H|].
  exact (replay_unknown_exchange (I := Demo.imports) 3 Demo.client Demo.two_slices
           "bitme" _ _ VNone true Demo.w0 H).
Defined.

(** C4, as stated, fails on a naive and an aware date.  Both strings
    parse, and [from_date] is two days after [to_date] on the clock, so
    later than it in whatever zone the naive value is read; validation
    fails, but with the [TypeError] of the comparison, not with
    [InvalidArgument]. *)
Lemma validate_payload_naive_and_aware :
  fromisoformat (Imports := Demo.imports) "2021-01-03T00:00:00"
    = Some {| micros := 63745228800000000; tzinfo := None |}
  /\ fromisoformat (Imports := Demo.imports) "2021-01-01T00:00:00+00:00"
      = Some {| micros := 63745056000000000; tzinfo := Some 0 |}
  /\ _validate_payload (I := Demo.imports) "bitmex"
       (Some "2021-01-03T00:00:00") (Some "2021-01-01T00:00:00+00:00") VNone Demo.w0
     = Some (Raise (TypeError "can't compare offset-naive and offset-aware datetimes"),
             Demo.w0)
  /\ ~ InvalidArgument (TypeError "can't compare offset-naive and offset-aware datetimes").
Proof.
  repeat (split; [by vm_compute|]). by intros [msg ?].
Qed.

(** Two naive dates one second apart: the rule on the dates passes. *)
Lemma validate_payload_date_order_witness :
  utc_micros {| micros := 63745056000000000; tzinfo := None |}
    < utc_micros {| micros := 63745056001000000; tzinfo := None |}
  /\ _validate_payload (I := Demo.imports) "bitmex"
       (Some "2021-01-01T00:00:00") (Some "2021-01-01T00:00:01") (VList 0) Demo.w0
     = check_filters (I := Demo.imports) "bitmex" (VList 0) Demo.w0
  /\ _validate_payload (I := Demo.imports) "bitmex"
       (Some "2021-01-01T00:00:00") (Some "2021-01-01T00:00:01") VNone Demo.w0
     = Some (Ok tt, Demo.w0).
Proof.
  assert (utc_micros {| micros := 63745056000000000; tzinfo := None |}
          < utc_micros {| micros := 63745056001000000; tzinfo := None |}) as H
    by (by vm_compute).
  split; [exact H|].
  refine (proj2 (proj1 (validate_payload_date_order (I := Demo.imports) "bitmex"
            "2021-01-01T00:00:00" "2021-01-01T00:00:01" (VList 0)
            {| micros := 63745056000000000; tzinfo := None |}
            {| micros := 63745056001000000; tzinfo := None |}
            Demo.w0 known_bitmex _ _) _) H); by vm_compute.
Defined.

(** C5 does not hold of the code.  A slice whose content is an empty line
    followed by a record line is read as two lines, of one byte and of 37:
    the line of one byte, the newline, is not of length 0, so the test of
    line 66 lets it through.  In raw mode it is yielded as a record of its
    own (two records, not one); in decoding mode its timestamp does not
    parse and the replay raises before the record line is reached (no
    record, not one). *)
Theorem replay_empty_line_not_skipped :
  file_lines (NEWLINE :: Demo.line28) = [[NEWLINE]; Demo.line28]
  /\ replay (I := Demo.imports) 2 Demo.client
       (Demo.one_slice (NEWLINE :: Demo.line28)) "bitmex"
       (Some "2021-01-01T00:00:00") (Some "2021-01-01T00:01:00") VNone false Demo.w0
     = Some (Ok tt,
             extend Demo.w0 0
               [EOpen (Demo.minute_path 0);
                EYield {| local_timestamp := FBytes [NEWLINE]; message := FBytes [] |};
                EYield (raw_response Demo.line28)])
  /\ exists msg,
       replay (I := Demo.imports) 2 Demo.client
         (Demo.one_slice (NEWLINE :: Demo.line28)) "bitmex"
         (Some "2021-01-01T00:00:00") (Some "2021-01-01T00:01:00") VNone true Demo.w0
       = Some (Raise (ValueError msg), extend Demo.w0 0 [EOpen (Demo.minute_path 0)]).
Proof.
  split; [by vm_compute|]. split; [by vm_compute|].
  eexists. vm_compute. reflexivity.
Qed.

(** C6, as stated, fails on a short line.  The line that is a newline and
    nothing else is not empty; raw mode answers it with the newline and the
    empty byte string, and no byte put between these two gives the line
    back. *)
Lemma raw_response_short_line :
  ~ reconstructs (I := Demo.imports) [NEWLINE].
Proof.
  intros (prefix & delimiter & suffix & Hraw & Hcat).
  vm_compute in Hraw. injection Hraw as <- <-. discriminate Hcat.
Qed.

(** A record line of the producer, 37 bytes long. *)
Lemma raw_response_reconstructs_witness :
  (29 <= length Demo.line28)%nat
  /\ exists delimiter,
       Demo.line28 !! 28%nat = Some delimiter
       /\ decode_line (I := Demo.imports) false Demo.line28
            = Ok {| local_timestamp := FBytes (take 28 Demo.line28);
                    message := FBytes (drop 29 Demo.line28) |}
       /\ (take 28 Demo.line28 ++ [delimiter] ++ drop 29 Demo.line28)%list
            = Demo.line28.
Proof.
  assert (29 <= length Demo.line28)%nat as H by (apply Nat.leb_le; by vm_compute).
  split; [exact H|].
  exact (raw_response_reconstructs (I := Demo.imports) Demo.line28 H).
Defined.

(** A slice whose second line is not a record: the first line is yielded,
    the second raises, the third line and the next slice are never read. *)
Lemma replay_aborts_on_malformed_record_witness :
  exists e,
    malformed (I := Demo.imports) (Demo.bytes "garbage" ++ [NEWLINE])%list e
    /\ exists fuel0 waits t, forall fuel, (fuel0 <= fuel)%nat ->
         replay (I := Demo.imports) fuel Demo.client Demo.torn_slice "bitmex"
           (Some "2021-01-01T00:00:00") (Some "2021-01-01T00:02:00") VNone true Demo.w0
         = Some (Raise e,
                 extend Demo.w0 t
                   (flat_map (fun k => slice_events
                                (slice_path (I := Demo.imports) Demo.client
                                   "bitmex" VNone (heap Demo.w0)
                                   (cursor {| micros := 63745056000000000;
                                              tzinfo := None |} k))
                                (waits k) [])
                             (seq 0 0)
                    ++ slice_events
                         (slice_path (I := Demo.imports) Demo.client
                            "bitmex" VNone (heap Demo.w0)
                            (cursor {| micros := 63745056000000000;
                                       tzinfo := None |} 0))
                         (waits 0%nat) [Demo.record28])).
Proof.
  eexists. split.
  - left. vm_compute. reflexivity.
  - refine (replay_aborts_on_malformed_record (I := Demo.imports)
              Demo.client Demo.torn_slice "bitmex" VNone
              "2021-01-01T00:00:00" "2021-01-01T00:02:00"
              {| micros := 63745056000000000; tzinfo := None |}
              {| micros := 63745056120000000; tzinfo := None |}
              (fun _ => []) 0 [Demo.line28] _ [Demo.line28] [Demo.record28] _
              Demo.w0 _ _ _ _ _ _ _ _ _ _ _).
    + by vm_compute.
    + by vm_compute.
    + by vm_compute.
    + split; by vm_compute.
    + split; by vm_compute.
    + apply Nat.ltb_lt. by vm_compute.
    + intros k Hk. assert (k = 0%nat) as -> by lia. by vm_compute; eexists.
    + intros k Hk. lia.
    + by vm_compute.
    + constructor; [by vm_compute|constructor].
    + left. vm_compute. reflexivity.
Defined.

(** The registry of [Demo] has a key for each of its exchanges. *)
Lemma validate_payload_no_KeyError_witness :
  (forall x, x ∈ @EXCHANGES Demo.imports ->
     is_Some (@EXCHANGE_CHANNELS_INFO Demo.imports !! x))
  /\ forall k w',
       _validate_payload (I := Demo.imports) "bitmex"
         (Some "2021-01-01T00:00:00") (Some "2021-01-01T00:02:00") (VList 0) Demo.w0
       <> Some (Raise (KeyError k), w').
Proof.
  assert (forall x, x ∈ @EXCHANGES Demo.imports ->
            is_Some (@EXCHANGE_CHANNELS_INFO Demo.imports !! x)) as H.
  { intros x Hx. change (x ∈ ["bitmex"; "deribit"]) in Hx.
    apply elem_of_cons in Hx as [->|Hx]; [by vm_compute; eexists|].
    apply elem_of_cons in Hx as [->|Hx]; [by vm_compute; eexists|].
    by apply elem_of_nil in Hx. }
  split; [exact H|]. intros k w'.
  exact (validate_payload_no_KeyError (I := Demo.imports) H "bitmex"
           (Some "2021-01-01T00:00:00") (Some "2021-01-01T00:02:00") (VList 0)
           Demo.w0 k w').
Defined.

End Scenarios.

(** ** More on validation *)

Section ValidationRules.
Context `{I : Imports}.
Import Tardis.

Lemma not_iso_date_unparsed s :
  fromisoformat s = None -> not_iso_date (Some s) = Ok true.
Proof.
  intros H. unfold not_iso_date, _try_parse_as_iso_date, py_fromisoformat.
  by rewrite H.
Qed.

(** A request that is valid without filters is, with filters, as valid as
    its filters are. *)
Lemma validate_payload_filters_only exchange from_date to_date filters w :
  _validate_payload exchange from_date to_date VNone w = Some (Ok tt, w) ->
  _validate_payload exchange from_date to_date filters w
    = check_filters exchange filters w.
Proof.
  unfold _validate_payload. destruct (negb _); [done|].
  unfold bind, lift.
  destruct (not_iso_date from_date) as [[]|]; try done.
  destruct (not_iso_date to_date) as [[]|]; try done.
  by destruct (res_bind _ _) as [[]|].
Qed.

Lemma validate_payload_ok_dates exchange from_date to_date filters w w' :
  _validate_payload exchange from_date to_date filters w = Some (Ok tt, w') ->
  exchange ∈ EXCHANGES /\ valid_dates from_date to_date.
Proof.
  intros Hok.
  destruct (decide (exchange ∈ EXCHANGES)) as [Hex|Hex].
  2:{ by rewrite (validate_payload_unknown_exchange _ _ _ _ _ Hex) in Hok. }
  split; [done|]. revert Hok. unfold _validate_payload.
  rewrite (bool_decide_eq_true_2 _ Hex). cbn [negb]. unfold bind, lift.
  destruct from_date as [sf|]; [|done].
  destruct (fromisoformat sf) as [d1|] eqn:Hf;
    [rewrite (not_iso_date_parsed _ _ Hf)|by rewrite (not_iso_date_unparsed _ Hf)].
  destruct to_date as [st|]; [|done].
  destruct (fromisoformat st) as [d2|] eqn:Ht;
    [rewrite (not_iso_date_parsed _ _ Ht)|by rewrite (not_iso_date_unparsed _ Ht)].
  unfold py_fromisoformat. rewrite Hf, Ht. cbn [res_bind].
  destruct (dt_ge d1 d2) as [[]|] eqn:E; try done. intros _.
  destruct (dt_ge_false_inv _ _ E) as [Haw Hlt].
  by exists sf, st, d1, d2.
Qed.

(** *** One filter *)

Lemma existsb_not_str syms :
  existsb (fun symbol => Bool.eqb (isinstance_str symbol) false) syms
    = negb (forallb isinstance_str syms).
Proof.
  induction syms as [|x syms IH]; [done|]. cbn [existsb forallb].
  rewrite IH. by destruct (isinstance_str x).
Qed.

Lemma validate_filters_valid exchange channels_info filter rest w :
  EXCHANGE_CHANNELS_INFO !! exchange = Some channels_info ->
  valid_filter (heap w) channels_info filter = true ->
  validate_filters exchange (filter :: rest) w = validate_filters exchange rest w.
Proof.
  intros Hreg Hv. destruct filter; try done.
  cbn [valid_filter] in Hv. apply andb_true_iff in Hv as [Hname Hsym].
  cbn [validate_filters]. unfold bind at 1. unfold getattr at 1. cbn [String.eqb Ascii.eqb Bool.eqb].
  unfold bind at 1, lift at 1, dict_getitem at 1. rewrite Hreg, Hname. cbn [negb].
  unfold bind at 1. unfold getattr at 1. cbn [String.eqb Ascii.eqb Bool.eqb].
  destruct (symbols (channels (heap w) l)) as [| | | |syms|]; try done.
  unfold bind at 1, list_items at 1. rewrite existsb_not_str.
  cbn [valid_symbols] in Hsym. by rewrite Hsym.
Qed.

Lemma validate_filters_invalid exchange channels_info l rest w :
  EXCHANGE_CHANNELS_INFO !! exchange = Some channels_info ->
  valid_filter (heap w) channels_info (VChannel l) = false ->
  exists msg,
    validate_filters exchange (VChannel l :: rest) w = Some (Raise (ValueError msg), w).
Proof.
  intros Hreg Hv. cbn [valid_filter] in Hv.
  cbn [validate_filters]. unfold bind at 1. unfold getattr at 1. cbn [String.eqb Ascii.eqb Bool.eqb].
  unfold bind at 1, lift at 1, dict_getitem at 1. rewrite Hreg.
  destruct (value_in _ channels_info) eqn:Hname; cbn [negb].
  - cbn [andb] in Hv.
    unfold bind at 1. unfold getattr at 1. cbn [String.eqb Ascii.eqb Bool.eqb].
    destruct (symbols (channels (heap w) l)) as [| | | |syms|];
      try done; try (by eexists).
    unfold bind at 1, list_items at 1. rewrite existsb_not_str.
    cbn [valid_symbols] in Hv. rewrite Hv. cbn [negb]. by eexists.
  - unfold bind, lift, dict_getitem, get_heap, raise. rewrite Hreg. cbn [res_bind].
    by eexists.
Qed.

Lemma validate_filters_not_a_channel exchange filter rest w :
  match filter with VChannel _ => False | _ => True end ->
  validate_filters exchange (filter :: rest) w =
    Some (Raise (AttributeError
            ("'" +:+ type_name filter +:+ "' object has no attribute 'name'")), w).
Proof. by destruct filter. Qed.

Lemma validate_filters_unregistered exchange l rest w :
  EXCHANGE_CHANNELS_INFO !! exchange = None ->
  validate_filters exchange (VChannel l :: rest) w = Some (Raise (KeyError exchange), w).
Proof.
  intros Hreg. cbn [validate_filters]. unfold bind at 1. unfold getattr at 1.
  cbn [String.eqb Ascii.eqb Bool.eqb].
  unfold bind, lift, dict_getitem. by rewrite Hreg.
Qed.

Lemma validate_filters_skip exchange channels_info good tail w :
  EXCHANGE_CHANNELS_INFO !! exchange = Some channels_info ->
  forallb (valid_filter (heap w) channels_info) good = true ->
  validate_filters exchange (good ++ tail) w = validate_filters exchange tail w.
Proof.
  intros Hreg. induction good as [|filter good IH]; [done|].
  cbn [forallb]. intros [Hv Hgood]%andb_true_iff.
  rewrite <- app_comm_cons, (validate_filters_valid _ _ _ _ _ Hreg Hv). by apply IH.
Qed.

Lemma validate_filters_ok_iff exchange channels_info items w :
  EXCHANGE_CHANNELS_INFO !! exchange = Some channels_info ->
  validate_filters exchange items w = Some (Ok tt, w)
  <-> forallb (valid_filter (heap w) channels_info) items = true.
Proof.
  intros Hreg. induction items as [|filter rest IH]; [done|].
  cbn [forallb]. destruct (valid_filter (heap w) channels_info filter) eqn:Hv.
  - by rewrite (validate_filters_valid _ _ _ _ _ Hreg Hv).
  - cbn [andb]. split; [|done].
    destruct filter; try (by rewrite validate_filters_not_a_channel).
    destruct (validate_filters_invalid _ _ _ rest _ Hreg Hv) as [msg ->]. done.
Qed.

Lemma check_filters_ok_iff exchange filters w :
  check_filters exchange filters w = Some (Ok tt, w)
  <-> valid_filters (heap w) exchange filters.
Proof.
  destruct filters as [| | | |l|]; try (split; done).
  unfold check_filters, valid_filters, bind, list_items.
  destruct (lists (heap w) l) as [|filter rest] eqn:Hl.
  { split; [by left|done]. }
  cbn [length Nat.ltb Nat.leb].
  destruct (EXCHANGE_CHANNELS_INFO !! exchange) as [channels_info|] eqn:Hreg.
  - rewrite (validate_filters_ok_iff _ _ _ _ Hreg). split.
    + intros H. right. by exists channels_info.
    + intros [H|(c & [= <-] & H)]; [done|exact H].
  - split; [|by intros [H|(c & H & _)]].
    destruct filter; try (by rewrite validate_filters_not_a_channel).
    by rewrite (validate_filters_unregistered _ _ _ _ Hreg).
Qed.

(** X1. Validation succeeds exactly on the requests with a known exchange,
    two date strings that parse to datetimes of the same kind with the
    first before the second, and filters that are [None], an empty list, or
    a list of [Channel]s each with a channel name of the exchange and with
    symbols that are [None] or a list of strings. *)
Theorem validate_payload_ok_iff exchange from_date to_date filters w :
  _validate_payload exchange from_date to_date filters w = Some (Ok tt, w)
  <-> exchange ∈ EXCHANGES
      /\ valid_dates from_date to_date
      /\ valid_filters (heap w) exchange filters.
Proof.
  split.
  - intros Hok. destruct (validate_payload_ok_dates _ _ _ _ _ _ Hok) as [Hex Hd].
    split; [done|]. split; [done|].
    destruct Hd as (sf & st & d1 & d2 & -> & -> & Hf & Ht & Haw & Hlt).
    rewrite (validate_payload_dates _ _ _ _ _ _ _ Hex Hf Ht) in Hok.
    rewrite (dt_ge_spec _ _ Haw) in Hok.
    rewrite (proj2 (Z.leb_gt _ _) Hlt) in Hok.
    by apply check_filters_ok_iff.
  - intros (Hex & (sf & st & d1 & d2 & -> & -> & Hf & Ht & Haw & Hlt) & Hfl).
    rewrite (validate_payload_dates _ _ _ _ _ _ _ Hex Hf Ht).
    rewrite (dt_ge_spec _ _ Haw), (proj2 (Z.leb_gt _ _) Hlt).
    by apply check_filters_ok_iff.
Qed.

(** X2. With a known exchange, a [from_date] that is [None] or does not
    parse fails validation with the [ValueError] that shows it, whatever
    [to_date] and the filters are; and with a [from_date] that parses, a
    [to_date] that is [None] or does not parse fails it with the
    [ValueError] that shows [to_date], whatever the filters are. *)
Theorem validate_payload_date_format exchange from_date to_date filters w :
  exchange ∈ EXCHANGES ->
  ((from_date = None \/ exists s, from_date = Some s /\ fromisoformat s = None) ->
     _validate_payload exchange from_date to_date filters w =
       Some (Raise (ValueError ("Invalid 'from_date' argument: " +:+ fmt from_date
          +:+ ". Please provide valid ISO date string. https://docs.python.org/3/library/datetime.html#datetime.date.fromisoformat")), w))
  /\ ((exists s, from_date = Some s /\ is_Some (fromisoformat s)) ->
      (to_date = None \/ exists s, to_date = Some s /\ fromisoformat s = None) ->
      _validate_payload exchange from_date to_date filters w =
        Some (Raise (ValueError ("Invalid 'to_date' argument: " +:+ fmt to_date
           +:+ ". Please provide valid ISO date string. https://docs.python.org/3/library/datetime.html#datetime.date.fromisoformat")), w)).
Proof.
  intros Hex. unfold _validate_payload.
  rewrite (bool_decide_eq_true_2 _ Hex). cbn [negb]. unfold bind, lift.
  assert (forall v, (v = None \/ exists s, v = Some s /\ fromisoformat s = None) ->
                    not_iso_date v = Ok true) as Hbad.
  { intros v [->|(s & -> & Hs)]; [done|by apply not_iso_date_unparsed]. }
  split.
  - intros H. by rewrite (Hbad _ H).
  - intros (s & -> & [d Hd]) H.
    by rewrite (not_iso_date_parsed _ _ Hd), (Hbad _ H).
Qed.

(** X3. The first filter that is not valid decides.  For a request that is
    valid without filters and filters that are a list of valid filters
    followed by a [Channel] that has a channel name the exchange does not
    have, or symbols that are neither [None] nor a list of strings,
    validation fails with [InvalidArgument], whatever comes after it in
    the list. *)
Theorem validate_payload_first_bad_filter exchange from_date to_date l
    channels_info good bad rest w :
  _validate_payload exchange from_date to_date VNone w = Some (Ok tt, w) ->
  EXCHANGE_CHANNELS_INFO !! exchange = Some channels_info ->
  lists (heap w) l = (good ++ VChannel bad :: rest)%list ->
  forallb (valid_filter (heap w) channels_info) good = true ->
  valid_filter (heap w) channels_info (VChannel bad) = false ->
  exists e, InvalidArgument e
    /\ _validate_payload exchange from_date to_date (VList l) w = Some (Raise e, w).
Proof.
  intros Hok Hreg Hl Hgood Hbad.
  rewrite (validate_payload_filters_only _ _ _ _ _ Hok).
  unfold check_filters, bind, list_items. rewrite Hl.
  replace (0 <? length (good ++ VChannel bad :: rest))%nat with true
    by (symmetry; apply Nat.ltb_lt; rewrite length_app; cbn; lia).
  rewrite (validate_filters_skip _ _ _ _ _ Hreg Hgood).
  destruct (validate_filters_invalid _ _ _ rest _ Hreg Hbad) as [msg ->].
  eexists. split; [by eexists|done].
Qed.

(** X4. The registry has to know the exchange: for a request that is valid
    without filters, on an exchange of [EXCHANGES] that is not a key of
    [EXCHANGE_CHANNELS_INFO], any list of filters that starts with a
    [Channel] makes validation raise [KeyError] with the exchange. *)
Theorem validate_payload_unregistered_exchange exchange from_date to_date l
    first rest w :
  _validate_payload exchange from_date to_date VNone w = Some (Ok tt, w) ->
  EXCHANGE_CHANNELS_INFO !! exchange = None ->
  lists (heap w) l = VChannel first :: rest ->
  _validate_payload exchange from_date to_date (VList l) w
    = Some (Raise (KeyError exchange), w).
Proof.
  intros Hok Hreg Hl.
  rewrite (validate_payload_filters_only _ _ _ _ _ Hok).
  unfold check_filters, bind, list_items. rewrite Hl. cbn [length Nat.ltb Nat.leb].
  by apply validate_filters_unregistered.
Qed.

(** X5. An item of the filters list that is not a [Channel] is not
    reported as an invalid argument: for a request that is valid without
    filters and a list of valid filters followed by [None], a number, a
    string or a list, validation raises the [AttributeError] of reading
    [name] on that item. *)
Theorem validate_payload_not_a_channel exchange from_date to_date l
    channels_info good bad rest w :
  _validate_payload exchange from_date to_date VNone w = Some (Ok tt, w) ->
  EXCHANGE_CHANNELS_INFO !! exchange = Some channels_info ->
  lists (heap w) l = (good ++ bad :: rest)%list ->
  forallb (valid_filter (heap w) channels_info) good = true ->
  match bad with VChannel _ => False | _ => True end ->
  _validate_payload exchange from_date to_date (VList l) w =
    Some (Raise (AttributeError
            ("'" +:+ type_name bad +:+ "' object has no attribute 'name'")), w)
  /\ ~ InvalidArgument
         (AttributeError ("'" +:+ type_name bad +:+ "' object has no attribute 'name'")).
Proof.
  intros Hok Hreg Hl Hgood Hbad. split; [|by intros [msg ?]].
  rewrite (validate_payload_filters_only _ _ _ _ _ Hok).
  unfold check_filters, bind, list_items. rewrite Hl.
  replace (0 <? length (good ++ bad :: rest))%nat with true
    by (symmetry; apply Nat.ltb_lt; rewrite length_app; cbn; lia).
  rewrite (validate_filters_skip _ _ _ _ _ Hreg Hgood).
  by apply validate_filters_not_a_channel.
Qed.

End ValidationRules.

(** ** More on the replay loop *)

Section ReplayRuns.
Context `{I : Imports}.
Import Tardis.
Variables (self : TardisClient) (fs : cache) (exchange : string) (filters : value).
Variable decode_response : bool.

(** X6. A request that validation rejects is not replayed at all: whatever
    [_validate_payload] raises, [replay] raises, under any step budget,
    with no file looked for, no wait and no record yielded. *)
Theorem replay_invalid_request from_date to_date w e w' fuel :
  _validate_payload exchange from_date to_date filters w = Some (Raise e, w') ->
  w' = w
  /\ replay fuel self fs exchange from_date to_date filters decode_response w
     = Some (Raise e, w).
Proof.
  intros H.
  destruct (readonly_validate_payload exchange from_date to_date filters w) as [r Hr].
  rewrite Hr in H. injection H as -> <-. split; [done|].
  unfold replay, bind. by rewrite Hr.
Qed.

(** *** What the loop can raise *)



Lemma dt_add_seconds_inv c s r :
  dt_add_seconds c s = r ->
  match r with
  | Ok c' => tzinfo c' = tzinfo c /\ micros c' = micros c + s * MICROS_PER_SECOND
  | Raise e => e = OverflowError "date value out of range"
  end.
Proof.
  unfold dt_add_seconds. destruct (between _ _ _); by intros <-.
Qed.



(** *** A range that is in the cache already *)

Lemma slice_loop_turn fuel polls to_date c c' a rs w :
  dt_lt c to_date = Ok true ->
  created fs (slice_path self exchange filters (heap w) c) = Some a ->
  (a - clock w < polls)%nat ->
  decodes decode_response
    (file_lines (content fs (slice_path self exchange filters (heap w) c))) rs ->
  dt_add_seconds c 60 = Ok c' ->
  slice_loop (S fuel) polls self fs exchange to_date filters decode_response c w =
    slice_loop fuel polls self fs exchange to_date filters decode_response c'
      (extend w (Nat.max (clock w) a)
         (slice_events (slice_path self exchange filters (heap w) c)
            (a - clock w) rs)).
Proof.
  intros Hlt Hc Ha Hdec Hadd. cbn [slice_loop]. unfold bind at 1, lift at 1.
  rewrite Hlt. unfold bind at 1.
  rewrite (wait_for_slice_found self fs exchange filters polls c a w Hc Ha).
  unfold bind at 1, emit at 1. unfold bind at 1.
  rewrite (for_line_in_file_decodes _ _ rs); [|apply file_lines_nonempty|exact Hdec].
  unfold bind at 1, lift at 1. rewrite Hadd.
  f_equal. unfold extend, slice_events. cbn [heap clock log].
  f_equal. by rewrite <- !app_assoc.
Qed.

Lemma slice_loop_cached polls d1 d2 (records : nat -> list Response) m :
  forall j w fuel,
    (0 < polls)%nat ->
    0 <= micros d1 ->
    micros d1 + Z.of_nat (j + m) * (60 * MICROS_PER_SECOND) <= MAX_MICROS ->
    (forall k, (j <= k < j + m)%nat -> dt_lt (cursor d1 k) d2 = Ok true) ->
    (forall k, (j <= k < j + m)%nat -> exists a,
        created fs (slice_path self exchange filters (heap w) (cursor d1 k)) = Some a
        /\ (a <= clock w)%nat) ->
    (forall k, (j <= k < j + m)%nat ->
        decodes decode_response
          (file_lines (content fs (slice_path self exchange filters (heap w)
                                     (cursor d1 k))))
          (records k)) ->
    slice_loop (m + fuel) polls self fs exchange d2 filters decode_response
        (cursor d1 j) w =
      slice_loop fuel polls self fs exchange d2 filters decode_response
        (cursor d1 (j + m))
        (extend w (clock w)
           (flat_map (fun k => EOpen (slice_path self exchange filters (heap w)
                                        (cursor d1 k))
                               :: map EYield (records k))
                     (seq j m))).
Proof.
  induction m as [|m IH]; intros j w fuel Hp H0 Hmax Hlt Hfs Hdec.
  - cbn [seq flat_map Nat.add]. by rewrite Nat.add_0_r, extend_nil.
  - destruct (Hfs j) as (a & Ha & Hle); [lia|].
    cbn [Nat.add].
    rewrite (slice_loop_turn (m + fuel) polls d2 (cursor d1 j) (cursor d1 (S j))
               a (records j) w); [|apply Hlt; lia|done|lia|apply Hdec; lia|].
    2:{ apply cursor_next; [done|]. unfold MICROS_PER_SECOND in *. lia. }
    replace (Nat.max (clock w) a) with (clock w) by lia.
    replace (a - clock w)%nat with 0%nat by lia.
    set (w1 := extend w _ _).
    rewrite (IH (S j) w1 fuel); [|done|done|..].
    + replace (S j + m)%nat with (j + S m)%nat by lia. f_equal.
      unfold w1. rewrite extend_extend. by cbn [seq flat_map clock extend].
    + replace (S j + m)%nat with (j + S m)%nat by lia. done.
    + intros k Hk. apply Hlt. lia.
    + intros k Hk. apply Hfs. lia.
    + intros k Hk. apply Hdec. lia.
Qed.

(** X8. A range that is in the cache already is replayed without a single
    sleep.  For a request that passes validation, with every slice of the
    range visible at the current poll and made of lines that decode, and a
    cursor that stays a datetime: one step of budget per slice and one more
    are enough, the clock is where it was, and the run is, slice after
    slice, the file opened and its records yielded. *)
Theorem replay_cached_never_sleeps sf st d1 d2 (records : nat -> list Response) w :
  _validate_payload exchange (Some sf) (Some st) filters w = Some (Ok tt, w) ->
  fromisoformat sf = Some d1 -> fromisoformat st = Some d2 ->
  valid_datetime d1 ->
  valid_datetime (cursor d1 (slice_count d1 d2)) ->
  (forall k, (k < slice_count d1 d2)%nat -> exists a,
     created fs (slice_path self exchange filters (heap w) (cursor d1 k)) = Some a
     /\ (a <= clock w)%nat) ->
  (forall k, (k < slice_count d1 d2)%nat ->
     decodes decode_response
       (file_lines (content fs (slice_path self exchange filters (heap w)
                                  (cursor d1 k))))
       (records k)) ->
  forall fuel, (slice_count d1 d2 < fuel)%nat ->
    replay fuel self fs exchange (Some sf) (Some st) filters decode_response w =
      Some (Ok tt,
            extend w (clock w)
              (flat_map (fun k => EOpen (slice_path self exchange filters (heap w)
                                           (cursor d1 k))
                                  :: map EYield (records k))
                        (seq 0 (slice_count d1 d2)))).
Proof.
  intros Hval Hf Ht Hv1 Hvn Hfs Hdec fuel Hfuel.
  destruct (validate_payload_ok_inv _ _ _ _ _ _ _ Hf Ht Hval) as [Haw Hlt].
  set (n := slice_count d1 d2) in *.
  unfold replay, bind. rewrite Hval. unfold lift, py_fromisoformat. rewrite Hf, Ht.
  destruct (Nat.le_exists_sub (S n) fuel Hfuel) as (f & Hf' & _).
  replace (slice_loop fuel fuel self fs exchange d2 filters decode_response d1 w)
    with (slice_loop (n + S f) fuel self fs exchange d2 filters decode_response
            (cursor d1 0) w) by (rewrite cursor_0; f_equal; lia).
  rewrite (slice_loop_cached fuel d1 d2 records n 0 w (S f)); [|lia|apply Hv1|apply Hvn|..].
  - apply slice_loop_done.
    rewrite dt_lt_cursor by done. by rewrite bool_decide_eq_false_2 by (cbn; lia).
  - intros k Hk. rewrite dt_lt_cursor by done. by rewrite bool_decide_eq_true_2 by lia.
  - intros k Hk. apply Hfs. lia.
  - intros k Hk. apply Hdec. lia.
Qed.

(** *** A slice that never comes *)

(** X9. A slice that is never written stops the replay for good.  For a
    request that passes validation, with the slices before slice [j] written
    at some time and made of lines that decode, and slice [j], inside the
    range, never written: under no step budget does [replay] return or
    raise. *)
Theorem replay_missing_slice_never_returns sf st d1 d2
    (records : nat -> list Response) j w :
  _validate_payload exchange (Some sf) (Some st) filters w = Some (Ok tt, w) ->
  fromisoformat sf = Some d1 -> fromisoformat st = Some d2 ->
  valid_datetime d1 ->
  valid_datetime (cursor d1 j) ->
  (j < slice_count d1 d2)%nat ->
  (forall k, (k < j)%nat ->
     is_Some (created fs (slice_path self exchange filters (heap w) (cursor d1 k)))) ->
  (forall k, (k < j)%nat ->
     decodes decode_response
       (file_lines (content fs (slice_path self exchange filters (heap w)
                                  (cursor d1 k))))
       (records k)) ->
  created fs (slice_path self exchange filters (heap w) (cursor d1 j)) = None ->
  forall fuel,
    replay fuel self fs exchange (Some sf) (Some st) filters decode_response w = None.
Proof.
  intros Hval Hf Ht Hv1 Hvj Hj Hfs Hdec Hnone fuel.
  destruct (validate_payload_ok_inv _ _ _ _ _ _ _ Hf Ht Hval) as [Haw Hlt].
  destruct (created_bound _ j Hfs) as [bound Hb].
  destruct (replay fuel self fs exchange (Some sf) (Some st) filters
              decode_response w) as [r|] eqn:E; [exfalso|done].
  apply (replay_fuel_mono _ _ _ _ _ _ (Nat.max fuel (j + S bound))) in E; [|lia].
  revert E. set (F := Nat.max fuel (j + S bound)).
  unfold replay, bind. rewrite Hval. unfold lift, py_fromisoformat. rewrite Hf, Ht.
  destruct (Nat.le_exists_sub (S j) F ltac:(lia)) as (f & HF & _).
  replace (slice_loop F F self fs exchange d2 filters decode_response d1 w)
    with (slice_loop (j + S f) F self fs exchange d2 filters decode_response
            (cursor d1 0) w) by (rewrite cursor_0; f_equal; lia).
  destruct (slice_loop_prefix self fs exchange filters decode_response F d1 d2
              records j 0 w (S f)) as (waits & t & ->).
  { apply Hv1. }
  { apply Hvj. }
  { intros k Hk. rewrite dt_lt_cursor by done. by rewrite bool_decide_eq_true_2 by lia. }
  { intros k Hk. destruct (Hb k) as (a & Ha & Hlt'); [lia|]. exists a. split; [done|lia]. }
  { intros k Hk. apply Hdec. lia. }
  cbn [Nat.add slice_loop]. unfold bind, lift.
  rewrite dt_lt_cursor by done. rewrite bool_decide_eq_true_2 by done.
  by rewrite wait_for_slice_missing.
Qed.

(** *** The client *)

Lemma wait_for_slice_same_cache_dir (self' : TardisClient) polls c :
  cache_dir self = cache_dir self' ->
  forall w, wait_for_slice polls self fs exchange c filters w
            = wait_for_slice polls self' fs exchange c filters w.
Proof.
  intros Hdir. induction polls as [|polls IH]; intros w; [done|].
  cbn [wait_for_slice]. unfold bind, get_heap, get_clock. rewrite Hdir.
  destruct (isfile fs (clock w) _); [done|].
  unfold emit, sleep. apply IH.
Qed.

Lemma slice_loop_same_cache_dir (self' : TardisClient) polls to_date fuel :
  cache_dir self = cache_dir self' ->
  forall c w,
    slice_loop fuel polls self fs exchange to_date filters decode_response c w
    = slice_loop fuel polls self' fs exchange to_date filters decode_response c w.
Proof.
  intros Hdir. induction fuel as [|fuel IH]; intros c w; [done|].
  cbn [slice_loop]. unfold bind, lift.
  destruct (dt_lt c to_date) as [[]|]; [|done..].
  rewrite (wait_for_slice_same_cache_dir self' polls c Hdir).
  destruct (wait_for_slice polls self' fs exchange c filters w)
    as [[[p|e] w1]|]; [|done..].
  unfold emit.
  destruct (for_line_in_file _ _ _ _) as [[[n|e] w2]|]; [|done..].
  destruct (dt_add_seconds c 60); [apply IH|done].
Qed.

(** X10. Of the client, [replay] uses the cache directory and nothing
    else: two clients with the same [cache_dir] replay every request in
    the same way, whatever their [endpoint] and [api_key] are.  (Nothing
    here ever downloads a slice.) *)
Theorem replay_uses_cache_dir_only (self' : TardisClient) fuel from_date to_date w :
  cache_dir self = cache_dir self' ->
  replay fuel self fs exchange from_date to_date filters decode_response w
  = replay fuel self' fs exchange from_date to_date filters decode_response w.
Proof.
  intros Hdir. unfold replay, bind, lift.
  destruct (_validate_payload _ _ _ _ w) as [[[[]|e] w1]|]; [|done..].
  destruct (py_fromisoformat from_date); [|done].
  destruct (py_fromisoformat to_date); [|done].
  by apply slice_loop_same_cache_dir.
Qed.

(** *** The end of the calendar *)

(** X12. When the range ends in the last minute of year 9999, the records
    come first and the error after them.  For a request that passes
    validation, with every slice written at some time and made of lines
    that decode, a cursor that is a datetime at the last slice and would
    not be one 60 seconds later: [replay] goes through every slice of the
    range, yields every record, and then raises the [OverflowError] of
    line 79. *)
Theorem replay_overflow_after_last_slice sf st d1 d2
    (records : nat -> list Response) w :
  _validate_payload exchange (Some sf) (Some st) filters w = Some (Ok tt, w) ->
  fromisoformat sf = Some d1 -> fromisoformat st = Some d2 ->
  valid_datetime d1 ->
  valid_datetime (cursor d1 (slice_count d1 d2 - 1)) ->
  ~ valid_datetime (cursor d1 (slice_count d1 d2)) ->
  (forall k, (k < slice_count d1 d2)%nat ->
     is_Some (created fs (slice_path self exchange filters (heap w) (cursor d1 k)))) ->
  (forall k, (k < slice_count d1 d2)%nat ->
     decodes decode_response
       (file_lines (content fs (slice_path self exchange filters (heap w)
                                  (cursor d1 k))))
       (records k)) ->
  exists fuel0 waits t, forall fuel, (fuel0 <= fuel)%nat ->
    replay fuel self fs exchange (Some sf) (Some st) filters decode_response w =
      Some (Raise (OverflowError "date value out of range"),
            extend w t
              (flat_map (fun k => slice_events
                                    (slice_path self exchange filters (heap w)
                                       (cursor d1 k))
                                    (waits k) (records k))
                        (seq 0 (slice_count d1 d2)))).
Proof.
  intros Hval Hf Ht Hv1 Hvl Hnv Hfs Hdec.
  destruct (validate_payload_ok_inv _ _ _ _ _ _ _ Hf Ht Hval) as [Haw Hlt].
  assert (0 < slice_count d1 d2)%nat as Hn.
  { apply slice_count_spec. rewrite utc_micros_cursor. lia. }
  destruct (slice_count d1 d2) as [|m] eqn:En; [lia|].
  replace (S m - 1)%nat with m in Hvl by lia.
  destruct (created_bound _ (S m) Hfs) as [bound Hb].
  assert (forall k, (k < S m)%nat -> dt_lt (cursor d1 k) d2 = Ok true) as Hltk.
  { intros k Hk. rewrite dt_lt_cursor by done. rewrite En.
    by rewrite bool_decide_eq_true_2 by lia. }
  destruct (slice_loop_prefix self fs exchange filters decode_response
              (m + S bound) d1 d2 records m 0 w (S bound))
    as (waits & t & Hrun).
  { apply Hv1. }
  { apply Hvl. }
  { intros k Hk. apply Hltk. lia. }
  { intros k Hk. destruct (Hb k) as (a & Ha & Hlt'); [lia|]. exists a. split; [done|lia]. }
  { intros k Hk. apply Hdec. lia. }
  destruct (Hb m) as (a & Ha & Hlta); [lia|].
  exists (m + S bound)%nat.
  exists (fun k => if (k =? m)%nat then (a - t)%nat else waits k).
  exists (Nat.max t a). intros fuel Hfuel.
  apply (replay_fuel_mono _ _ _ _ _ (m + S bound)); [|done].
  unfold replay, bind. rewrite Hval. unfold lift, py_fromisoformat. rewrite Hf, Ht.
  replace (slice_loop (m + S bound) (m + S bound) self fs exchange d2 filters
             decode_response d1 w)
    with (slice_loop (m + S bound) (m + S bound) self fs exchange d2 filters
            decode_response (cursor d1 0) w) by (by rewrite cursor_0).
  rewrite Hrun. cbn [Nat.add slice_loop]. unfold bind at 1, lift at 1.
  rewrite (Hltk m) by lia. unfold bind at 1.
  rewrite (wait_for_slice_found self fs exchange filters (m + S bound) (cursor d1 m) a)
    by (cbn [heap clock extend]; first [done|lia]).
  unfold bind at 1, emit at 1. unfold bind at 1.
  rewrite (for_line_in_file_decodes _ _ (records m));
    [|apply file_lines_nonempty|cbn [heap extend]; apply Hdec; lia].
  unfold bind at 1, lift at 1.
  pose proof (dt_add_seconds_inv (cursor d1 m) 60 _ eq_refl) as Hadd.
  destruct (dt_add_seconds (cursor d1 m) 60) as [c'|e] eqn:Ea.
  { exfalso. apply Hnv. unfold dt_add_seconds in Ea.
    destruct (between _ _ _) eqn:Hb'; [|done].
    apply between_spec in Hb'. unfold valid_datetime, cursor in *.
    cbn [micros] in *. unfold MICROS_PER_SECOND in *. lia. }
  subst e. f_equal. f_equal.
  unfold extend, slice_events. cbn [heap clock log].
  f_equal. rewrite seq_S, flat_map_app. cbn [Nat.add flat_map].
  rewrite Nat.eqb_refl, app_nil_r, <- !app_assoc.
  erewrite flat_map_seq_ext; [reflexivity|].
  intros k Hk. cbv beta. destruct (Nat.eqb_spec k m); [lia|done].
Qed.

(** *** Raw mode *)



(** *** The waiter and the loop over the lines *)

(** X13. The wait for a slice sleeps as often as it has to and no more: a
    file that becomes visible at poll [a] is found, with the clock at [t],
    after [a - t] polls that do not find it (none when it is there
    already), given that many polls and one more; the path comes back, and
    nothing is opened or yielded on the way. *)
Theorem slice_waiter_polls polls c a w :
  created fs (slice_path self exchange filters (heap w) c) = Some a ->
  (a - clock w < polls)%nat ->
  wait_for_slice polls self fs exchange c filters w =
    Some (Ok (slice_path self exchange filters (heap w) c),
          {| heap := heap w;
             clock := Nat.max (clock w) a;
             log := log w ++ repeat (EWait (slice_path self exchange filters (heap w) c))
                                    (a - clock w) |}).
Proof.
  unfold slice_path. revert w.
  induction polls as [|polls IH]; intros w Hc Hlt; [lia|].
  cbn [wait_for_slice]. unfold bind, get_heap, get_clock, isfile.
  rewrite Hc. destruct (a <=? clock w)%nat eqn:E.
  - apply Nat.leb_le in E. unfold ret.
    replace (a - clock w)%nat with 0%nat by lia.
    replace (Nat.max (clock w) a) with (clock w) by lia.
    cbn [repeat]. rewrite app_nil_r. by destruct w.
  - apply Nat.leb_gt in E. unfold emit, sleep. cbn [heap clock log].
    rewrite IH; cbn [heap clock log]; [|done|lia].
    replace (a - clock w)%nat with (S (a - S (clock w))) by lia.
    replace (Nat.max (S (clock w)) a) with (Nat.max (clock w) a) by lia.
    cbn [repeat]. by rewrite <- app_assoc.
Qed.

(** X14. [messages_count] counts the records of the slice: when the loop
    over the lines of a slice ends, the records it has yielded are those of
    the lines of length other than 0, in order, and the count has grown by
    their number (a line of length 0 is neither yielded nor counted). *)
Theorem messages_count_counts_records (decoding : bool) lines : forall n w n' w',
  for_line_in_file decoding lines n w = Some (Ok n', w') ->
  exists rs,
    decodes decoding (List.filter nonempty lines) rs
    /\ w' = extend w (clock w) (map EYield rs)
    /\ n' = (n + length rs)%nat.
Proof.
  induction lines as [|line rest IH]; intros n w n' w'.
  - intros [= <- <-]. exists []. split; [constructor|].
    by rewrite extend_nil, Nat.add_0_r.
  - cbn [for_line_in_file List.filter]. unfold nonempty at 1.
    destruct (length line =? 0)%nat; cbn [negb]; [apply IH|].
    unfold bind, lift, emit.
    destruct (decode_line decoding line) as [r|e] eqn:Hd; [|done].
    intros H. destruct (IH _ _ _ _ H) as (rs & Hdec & -> & ->).
    exists (r :: rs). split; [by constructor|]. split.
    + unfold extend. cbn [heap clock log map]. by rewrite <- app_assoc.
    + cbn [length]. lia.
Qed.

(** X15. Decoding never looks at the bytes between the timestamp and the
    payload: two lines with the same first 26 bytes and the same bytes from
    offset 29 on decode alike, whatever their bytes at offsets 26, 27 and
    28 are (the seventh digit of the fraction, the zone letter and the
    delimiter of the producer's format); and in raw mode two lines with the
    same first 28 bytes and the same bytes from offset 29 on give the same
    Response, whatever the byte at offset 28 is. *)
Theorem decode_line_ignores_gap (decoding : bool) (line1 line2 : list byte) :
  take (if decoding then 26 else 28)%nat line1
    = take (if decoding then 26 else 28)%nat line2 ->
  drop 29 line1 = drop 29 line2 ->
  decode_line decoding line1 = decode_line decoding line2.
Proof.
  intros Hhead Htail. unfold decode_line, slice, slice_from, DATE_MESSAGE_SPLIT_INDEX.
  cbn [Nat.sub Nat.add drop]. destruct decoding.
  - change (drop 0 line1) with line1. change (drop 0 line2) with line2.
    by rewrite Hhead, Htail.
  - change (drop 0 line1) with line1. change (drop 0 line2) with line2.
    by rewrite Hhead, Htail.
Qed.

End ReplayRuns.

(** ** The further statements on concrete requests *)

Section MoreScenarios.
Import Tardis.

Ltac compute_lines :=
  match goal with
  | |- decodes _ ?l _ => let l' := eval vm_compute in l in change l with l'
  end.

Lemma bitmex_channels :
  @EXCHANGE_CHANNELS_INFO Demo.imports !! "bitmex" = Some ["trade"; "orderBookL2"].
Proof. by vm_compute. Qed.

(** A request on the objects of [Demo.w1] that is valid without filters. *)
Lemma valid_without_filters :
  _validate_payload (I := Demo.imports) "bitmex"
    (Some "2021-01-01T00:00:00") (Some "2021-01-01T00:02:00") VNone Demo.w1
  = Some (Ok tt, Demo.w1).
Proof. by vm_compute. Qed.

(** A date in words, then a month 13 after a date that parses. *)
Lemma validate_payload_date_format_witness :
  _validate_payload (I := Demo.imports) "bitmex" (Some "yesterday") None (VInt 7) Demo.w0
    = Some (Raise (ValueError ("Invalid 'from_date' argument: " +:+ "yesterday"
         +:+ ". Please provide valid ISO date string. https://docs.python.org/3/library/datetime.html#datetime.date.fromisoformat")), Demo.w0)
  /\ _validate_payload (I := Demo.imports) "bitmex" (Some "2021-01-01")
       (Some "2021-13-01") (VInt 7) Demo.w0
     = Some (Raise (ValueError ("Invalid 'to_date' argument: " +:+ "2021-13-01"
          +:+ ". Please provide valid ISO date string. https://docs.python.org/3/library/datetime.html#datetime.date.fromisoformat")), Demo.w0).
Proof.
  split.
  - refine (proj1 (validate_payload_date_format (I := Demo.imports) "bitmex"
              (Some "yesterday") None (VInt 7) Demo.w0 known_bitmex) _).
    right. exists "yesterday". split; [reflexivity|by vm_compute].
  - refine (proj2 (validate_payload_date_format (I := Demo.imports) "bitmex"
              (Some "2021-01-01") (Some "2021-13-01") (VInt 7) Demo.w0 known_bitmex)
              _ _).
    + exists "2021-01-01". split; [reflexivity|by vm_compute; eexists].
    + right. exists "2021-13-01". split; [reflexivity|by vm_compute].
Defined.

(** A filter on trade, then one on a channel bitmex does not have, then a
    third. *)
Lemma validate_payload_first_bad_filter_witness :
  exists e, InvalidArgument e
    /\ _validate_payload (I := Demo.imports) "bitmex"
         (Some "2021-01-01T00:00:00") (Some "2021-01-01T00:02:00") (VList 0) Demo.w1
       = Some (Raise e, Demo.w1).
Proof.
  refine (validate_payload_first_bad_filter (I := Demo.imports) "bitmex"
            (Some "2021-01-01T00:00:00") (Some "2021-01-01T00:02:00") 0%nat
            ["trade"; "orderBookL2"] [VChannel 0] 1%nat [VChannel 2] Demo.w1
            valid_without_filters bitmex_channels _ _ _); by vm_compute.
Defined.

(** The registry emptied: a filter on trade is enough for a [KeyError]. *)
Lemma validate_payload_unregistered_exchange_witness :
  @EXCHANGE_CHANNELS_INFO Demo.imports_without_registry !! "bitmex" = None
  /\ _validate_payload (I := Demo.imports_without_registry) "bitmex"
       (Some "2021-01-01T00:00:00") (Some "2021-01-01T00:02:00") (VList 0) Demo.w1
     = Some (Raise (KeyError "bitmex"), Demo.w1).
Proof.
  assert (@EXCHANGE_CHANNELS_INFO Demo.imports_without_registry !! "bitmex" = None)
    as H by (by vm_compute).
  split; [exact H|].
  refine (validate_payload_unregistered_exchange (I := Demo.imports_without_registry)
            "bitmex" (Some "2021-01-01T00:00:00") (Some "2021-01-01T00:02:00") 0%nat
            0%nat [VChannel 1; VChannel 2] Demo.w1 _ H _); by vm_compute.
Defined.

(** A filter on trade, then the name of a channel where a filter should
    be. *)
Lemma validate_payload_not_a_channel_witness :
  _validate_payload (I := Demo.imports) "bitmex"
    (Some "2021-01-01T00:00:00") (Some "2021-01-01T00:02:00") (VList 2) Demo.w1
  = Some (Raise (AttributeError "'str' object has no attribute 'name'"), Demo.w1).
Proof.
  refine (proj1 (validate_payload_not_a_channel (I := Demo.imports) "bitmex"
            (Some "2021-01-01T00:00:00") (Some "2021-01-01T00:02:00") 2%nat
            ["trade"; "orderBookL2"] [VChannel 0] (VStr "trade") [] Demo.w1
            valid_without_filters bitmex_channels _ _ _)); by vm_compute.
Defined.

(** No [to_date]: nothing of the cache is touched. *)
Lemma replay_invalid_request_witness :
  exists e,
    _validate_payload (I := Demo.imports) "bitmex" (Some "2021-01-01T00:00:00") None
      VNone Demo.w0 = Some (Raise e, Demo.w0)
    /\ replay (I := Demo.imports) 5 Demo.client Demo.two_slices "bitmex"
         (Some "2021-01-01T00:00:00") None VNone true Demo.w0
       = Some (Raise e, Demo.w0).
Proof.
  eassert (_validate_payload (I := Demo.imports) "bitmex"
             (Some "2021-01-01T00:00:00") None VNone Demo.w0
           = Some (Raise _, Demo.w0)) as H by (vm_compute; reflexivity).
  eexists. split; [exact H|].
  exact (proj2 (replay_invalid_request (I := Demo.imports) Demo.client
                  Demo.two_slices "bitmex" VNone true _ _ _ _ _ 5%nat H)).
Defined.


(** The end-to-end scenario, its slices in the cache from the start: three
    steps of budget, no sleep. *)
Lemma replay_cached_never_sleeps_witness :
  replay (I := Demo.imports) 3 Demo.client Demo.two_slices "bitmex"
    (Some "2021-01-01T00:00:00") (Some "2021-01-01T00:02:00") VNone true Demo.w0
  = Some (Ok tt,
          extend Demo.w0 (clock Demo.w0)
            (flat_map (fun k => EOpen (slice_path (I := Demo.imports) Demo.client
                                         "bitmex" VNone (heap Demo.w0)
                                         (cursor {| micros := 63745056000000000;
                                                    tzinfo := None |} k))
                                :: map EYield (Demo.records_of_two_slices k))
                      (seq 0 2))).
Proof.
  refine (replay_cached_never_sleeps (I := Demo.imports)
            Demo.client Demo.two_slices "bitmex" VNone true
            "2021-01-01T00:00:00" "2021-01-01T00:02:00"
            {| micros := 63745056000000000; tzinfo := None |}
            {| micros := 63745056120000000; tzinfo := None |}
            Demo.records_of_two_slices Demo.w0 _ _ _ _ _ _ _ 3%nat _).
  - by vm_compute.
  - by vm_compute.
  - by vm_compute.
  - split; by vm_compute.
  - split; by vm_compute.
  - intros k Hk. change (k < 2)%nat in Hk.
    destruct k as [|[|k]]; [exists 0%nat; split; [by vm_compute|apply Nat.le_refl]..|lia].
  - intros k Hk. change (k < 2)%nat in Hk.
    destruct k as [|[|k]]; [| |lia]; compute_lines.
    + repeat (constructor; [by vm_compute|]). constructor.
    + constructor.
  - apply Nat.ltb_lt. by vm_compute.
Defined.

(** The first slice comes after one poll, the second never. *)
Lemma replay_missing_slice_never_returns_witness :
  created Demo.second_slice_missing (Demo.minute_path 1) = None
  /\ forall fuel,
       replay (I := Demo.imports) fuel Demo.client Demo.second_slice_missing "bitmex"
         (Some "2021-01-01T00:00:00") (Some "2021-01-01T00:02:00") VNone true Demo.w0
       = None.
Proof.
  split; [by vm_compute|].
  refine (replay_missing_slice_never_returns (I := Demo.imports)
            Demo.client Demo.second_slice_missing "bitmex" VNone true
            "2021-01-01T00:00:00" "2021-01-01T00:02:00"
            {| micros := 63745056000000000; tzinfo := None |}
            {| micros := 63745056120000000; tzinfo := None |}
            Demo.records_of_two_slices 1%nat Demo.w0 _ _ _ _ _ _ _ _ _).
  - by vm_compute.
  - by vm_compute.
  - by vm_compute.
  - split; by vm_compute.
  - split; by vm_compute.
  - apply Nat.ltb_lt. by vm_compute.
  - intros k Hk. assert (k = 0%nat) as -> by lia. by vm_compute; eexists.
  - intros k Hk. assert (k = 0%nat) as -> by lia. compute_lines.
    repeat (constructor; [by vm_compute|]). constructor.
  - by vm_compute.
Defined.

(** Another endpoint and a key, the same cache directory. *)
Lemma replay_uses_cache_dir_only_witness :
  cache_dir Demo.client = cache_dir Demo.other_client
  /\ replay (I := Demo.imports) 3 Demo.client Demo.two_slices "bitmex"
       (Some "2021-01-01T00:00:00") (Some "2021-01-01T00:02:00") VNone true Demo.w0
     = replay (I := Demo.imports) 3 Demo.other_client Demo.two_slices "bitmex"
         (Some "2021-01-01T00:00:00") (Some "2021-01-01T00:02:00") VNone true Demo.w0.
Proof.
  split; [reflexivity|].
  exact (replay_uses_cache_dir_only (I := Demo.imports) Demo.client Demo.two_slices
           "bitmex" VNone true Demo.other_client 3%nat _ _ Demo.w0 eq_refl).
Defined.


(** The last two minutes of year 9999: both records, then the error. *)
Lemma replay_overflow_after_last_slice_witness :
  exists fuel0 waits t, forall fuel, (fuel0 <= fuel)%nat ->
    replay (I := Demo.imports) fuel Demo.client Demo.last_two_minutes "bitmex"
      (Some "9999-12-31T23:58:00") (Some "9999-12-31T23:59:30") VNone true Demo.w0
    = Some (Raise (OverflowError "date value out of range"),
            extend Demo.w0 t
              (flat_map (fun k => slice_events
                                    (slice_path (I := Demo.imports) Demo.client
                                       "bitmex" VNone (heap Demo.w0)
                                       (cursor {| micros := 315537897480000000;
                                                  tzinfo := None |} k))
                                    (waits k) [Demo.record28])
                        (seq 0 2))).
Proof.
  refine (replay_overflow_after_last_slice (I := Demo.imports)
            Demo.client Demo.last_two_minutes "bitmex" VNone true
            "9999-12-31T23:58:00" "9999-12-31T23:59:30"
            {| micros := 315537897480000000; tzinfo := None |}
            {| micros := 315537897570000000; tzinfo := None |}
            (fun _ => [Demo.record28]) Demo.w0 _ _ _ _ _ _ _ _).
  - by vm_compute.
  - by vm_compute.
  - by vm_compute.
  - split; by vm_compute.
  - split; by vm_compute.
  - intros [_ H]. by vm_compute in H.
  - intros k Hk. change (k < 2)%nat in Hk.
    destruct k as [|[|k]]; [by vm_compute; eexists..|lia].
  - intros k Hk. change (k < 2)%nat in Hk.
    destruct k as [|[|k]]; [| |lia]; compute_lines;
      (constructor; [by vm_compute|constructor]).
Defined.

(** A slice written at poll 2, waited for from poll 0 with three polls. *)
Lemma slice_waiter_polls_witness :
  wait_for_slice (I := Demo.imports) 3 Demo.client Demo.torn_slice "bitmex"
    {| micros := 63745056000000000; tzinfo := None |} VNone Demo.w0
  = Some (Ok (Demo.minute_path 0),
          {| heap := heap Demo.w0; clock := 2%nat;
             log := [EWait (Demo.minute_path 0); EWait (Demo.minute_path 0)] |}).
Proof.
  refine (slice_waiter_polls (I := Demo.imports) Demo.client Demo.torn_slice
            "bitmex" VNone 3%nat {| micros := 63745056000000000; tzinfo := None |}
            2%nat Demo.w0 _ _).
  - by vm_compute.
  - apply Nat.ltb_lt. by vm_compute.
Defined.

(** The slice of three records: the count goes from 0 to 3. *)
Lemma messages_count_counts_records_witness :
  exists rs,
    decodes (I := Demo.imports) true
      (List.filter nonempty (file_lines Demo.three_lines)) rs
    /\ extend Demo.w0 (clock Demo.w0) (map EYield Demo.three_records)
       = extend Demo.w0 (clock Demo.w0) (map EYield rs)
    /\ 3%nat = (0 + length rs)%nat.
Proof.
  refine (messages_count_counts_records (I := Demo.imports) true
            (file_lines Demo.three_lines) 0%nat Demo.w0 3%nat
            (extend Demo.w0 (clock Demo.w0) (map EYield Demo.three_records)) _).
  by vm_compute.
Defined.

(** The record line of the producer and the same line with other bytes at
    offsets 26 to 28. *)
Lemma decode_line_ignores_gap_witness :
  Demo.line28 <> Demo.line28_other_gap
  /\ decode_line (I := Demo.imports) true Demo.line28
     = decode_line (I := Demo.imports) true Demo.line28_other_gap.
Proof.
  split; [by vm_compute|].
  refine (decode_line_ignores_gap (I := Demo.imports) true Demo.line28
            Demo.line28_other_gap _ _); by vm_compute.
Defined.

End MoreScenarios.
